(** * Chart builder: value parsing, column type inference, mapping
      validation and Vega-Lite specification building

    A shallow embedding of the data-shaping core of the chart builder:
    - [DataManager]  (modules/data-manager.js): CSV/TSV parsing, cell value
      parsing and column type inference;
    - [DragDropManager] (modules/drag-drop.js): the mapping validator;
    - [SpecBuilder]  (modules/spec-builder.js): the specification builder;
    - [ChartRenderer] (modules/chart-renderer.js): the validation of a
      specification before rendering;
    - [ChartBuilder] (chart-builder.js): the guard in front of the builder
      and the state the builder keeps between user actions.

    Conventions of the embedding.
    - A JavaScript string is a Rocq [string]; each character stands for one
      code unit below 256 (Latin-1).  White space and case conversion follow
      ECMAScript on that range.
    - A JavaScript number is kept as the decimal value its literal denotes
      ([JSNumber]); rounding to binary64 is not modelled, so that the value
      kept is the number the program has where binary64 holds it exactly,
      as it does every integer of magnitude up to 2^53.
    - A JavaScript object used as a record of cells (a data row) is a
      [gmap string Cell], the map of its own properties.  Where the program
      builds a row, an assignment under the name [__proto__] is followed to
      the setter that [Object.prototype] hands down; what a row inherits is
      not part of the map, so that reading a name that is no own property
      of the row is outside the model.
    - A [throw] is the [Throw] result of the [result] monad. *)

From Stdlib Require Import ZArith NArith String Ascii List Bool Lia Permutation.
From stdpp Require Import base option list strings gmap pretty.

Open Scope string_scope.
Open Scope list_scope.

(* ===================================================================== *)
(** ** JavaScript strings *)
(* ===================================================================== *)

Module JSString.

Definition chars (s : string) : list ascii := list_ascii_of_string s.
Definition str (l : list ascii) : string := string_of_list_ascii l.

Definition code (c : ascii) : N := N_of_ascii c.

Definition inRange (lo hi : N) (c : ascii) : bool :=
  ((lo <=? code c) && (code c <=? hi))%N.

(** [\d] of a regular expression without the unicode flag: [0-9]. *)
Definition isDigit (c : ascii) : bool := inRange 48 57 c.

(** WhiteSpace and LineTerminator code units below 256: TAB, LF, VT, FF,
    CR, SP and NBSP.  [String.prototype.trim] and the numeric string
    grammar strip exactly these. *)
Definition isWhiteSpace (c : ascii) : bool :=
  inRange 9 13 c || (code c =? 32)%N || (code c =? 160)%N.

(** Lower-case mapping on Latin-1: A-Z, and the accented capitals
    U+00C0..U+00DE except the multiplication sign U+00D7. *)
Definition lowerChar (c : ascii) : ascii :=
  if inRange 65 90 c
     || (inRange 192 222 c && negb (code c =? 215)%N)
  then ascii_of_N (code c + 32)
  else c.

(** Upper-case mapping of one code unit, where the result stays below
    256: a-z, and U+00E0..U+00FE except the division sign U+00F7. *)
Definition upperChar (c : ascii) : ascii :=
  if inRange 97 122 c
     || (inRange 224 254 c && negb (code c =? 247)%N)
  then ascii_of_N (code c - 32)
  else c.

Definition toLowerCase (s : string) : string := str (map lowerChar (chars s)).

Fixpoint dropWhile (p : ascii -> bool) (l : list ascii) : list ascii :=
  match l with
  | [] => []
  | c :: r => if p c then dropWhile p r else l
  end.

Definition trimStartChars (l : list ascii) : list ascii := dropWhile isWhiteSpace l.
Definition trimEndChars (l : list ascii) : list ascii :=
  rev (dropWhile isWhiteSpace (rev l)).
Definition trimChars (l : list ascii) : list ascii := trimEndChars (trimStartChars l).

(** [s.trim()] *)
Definition trim (s : string) : string := str (trimChars (chars s)).

(** [s.startsWith(c)] and [s.endsWith(c)] for a one-character [c]. *)
Definition startsWithChar (c : ascii) (l : list ascii) : bool :=
  match l with
  | d :: _ => Ascii.eqb c d
  | [] => false
  end.
Definition endsWithChar (c : ascii) (l : list ascii) : bool :=
  startsWithChar c (rev l).

(** [s.slice(1, -1)]: from index 1 up to, not including, the last
    character; empty when the string has fewer than two characters. *)
Definition slice_1_m1 (l : list ascii) : list ascii :=
  match l with
  | [] => []
  | _ :: r => removelast r
  end.

(** [s.split(sep)] for a one-character separator: never empty. *)
Fixpoint splitChars (sep : ascii) (cur : list ascii) (l : list ascii)
  : list (list ascii) :=
  match l with
  | [] => [rev cur]
  | c :: r => if Ascii.eqb c sep then rev cur :: splitChars sep [] r
              else splitChars sep (c :: cur) r
  end.

Definition split (sep : ascii) (s : string) : list string :=
  map str (splitChars sep [] (chars s)).

(** [arr.includes(s)] on an array of strings. *)
Definition includes (arr : list string) (s : string) : bool :=
  existsb (String.eqb s) arr.

(** [s.length] *)
Definition length (s : string) : nat := String.length s.

End JSString.

(* ===================================================================== *)
(** ** JavaScript numbers: the numeric string grammar and [parseFloat] *)
(* ===================================================================== *)

(** The decimal value [(-1)^neg * mantissa * 10^exp10], or one of the
    non-finite numbers. *)
Inductive JSNumber : Type :=
| NaN
| Infinity (neg : bool)
| Finite (neg : bool) (mantissa : N) (exp10 : Z).

Definition num (n : N) : JSNumber := Finite false n 0.

Module JSNumeric.
Import JSString.

Definition digitVal (c : ascii) : N := (code c - 48)%N.

(** Longest run of characters satisfying [p], and what follows. *)
Fixpoint span (p : ascii -> bool) (l : list ascii) : list ascii * list ascii :=
  match l with
  | [] => ([], [])
  | c :: r => if p c then let '(a, b) := span p r in (c :: a, b)
              else ([], l)
  end.

(** Value of a run of decimal digits, continuing from [acc]. *)
Definition digitsVal (acc : N) (ds : list ascii) : N :=
  fold_left (fun a d => (10 * a + digitVal d)%N) ds acc.

(** Optional sign: [true] for a minus. *)
Definition scanSign (l : list ascii) : bool * list ascii :=
  match l with
  | "+"%char :: r => (false, r)
  | "-"%char :: r => (true, r)
  | _ => (false, l)
  end.

(** ExponentPart_opt: [e] or [E], an optional sign, at least one digit.
    Without a digit there is no exponent part and nothing is consumed. *)
Definition scanExponent (l : list ascii) : Z * list ascii :=
  match l with
  | c :: r =>
      if Ascii.eqb c "e" || Ascii.eqb c "E" then
        let '(neg, r1) := scanSign r in
        let '(ds, r2) := span isDigit r1 in
        match ds with
        | [] => (0%Z, l)
        | _ => let e := Z.of_N (digitsVal 0 ds) in
               ((if neg then - e else e)%Z, r2)
        end
      else (0%Z, l)
  | [] => (0%Z, l)
  end.

Definition infinityChars : list ascii := chars "Infinity".

Fixpoint stripPrefix (p l : list ascii) : option (list ascii) :=
  match p, l with
  | [], _ => Some l
  | a :: p', b :: l' => if Ascii.eqb a b then stripPrefix p' l' else None
  | _ :: _, [] => None
  end.

(** Longest prefix that is a StrUnsignedDecimalLiteral:
    [Infinity], [digits . digits_opt exp_opt], [. digits exp_opt] or
    [digits exp_opt]; with its value (to be signed) and the rest. *)
Definition scanUnsignedDecimal (neg : bool) (l : list ascii)
  : option (JSNumber * list ascii) :=
  match stripPrefix infinityChars l with
  | Some r => Some (Infinity neg, r)
  | None =>
      let '(ip, r1) := span isDigit l in
      match r1 with
      | "."%char :: r2 =>
          let '(fp, r3) := span isDigit r2 in
          match ip, fp with
          | [], [] => None
          | _, _ =>
              let '(e, r4) := scanExponent r3 in
              Some (Finite neg (digitsVal (digitsVal 0 ip) fp)
                           (e - Z.of_nat (List.length fp)), r4)
          end
      | _ =>
          match ip with
          | [] => None
          | _ => let '(e, r4) := scanExponent r1 in
                 Some (Finite neg (digitsVal 0 ip) e, r4)
          end
      end
  end.

(** Longest prefix that is a StrDecimalLiteral (a signed decimal). *)
Definition scanDecimal (l : list ascii) : option (JSNumber * list ascii) :=
  let '(neg, r) := scanSign l in scanUnsignedDecimal neg r.

Definition isHexDigit (c : ascii) : bool :=
  isDigit c || inRange 65 70 c || inRange 97 102 c.
Definition isOctalDigit (c : ascii) : bool := inRange 48 55 c.
Definition isBinaryDigit (c : ascii) : bool := inRange 48 49 c.

(** NonDecimalIntegerLiteral: [0x], [0o] or [0b] (either case) followed
    by at least one digit of that base and nothing else; no sign. *)
Definition isNonDecimalInteger (l : list ascii) : bool :=
  match l with
  | "0"%char :: p :: d :: r =>
      if Ascii.eqb p "x" || Ascii.eqb p "X" then forallb isHexDigit (d :: r)
      else if Ascii.eqb p "o" || Ascii.eqb p "O" then forallb isOctalDigit (d :: r)
      else if Ascii.eqb p "b" || Ascii.eqb p "B" then forallb isBinaryDigit (d :: r)
      else false
  | _ => false
  end.

(** [Number(s)] is not [NaN]: after stripping white space the text is
    empty (the number 0), a complete signed decimal literal, or a
    complete non-decimal integer literal. *)
Definition isNumericString (s : string) : bool :=
  let l := trimChars (chars s) in
  match l with
  | [] => true
  | _ =>
      match scanDecimal l with
      | Some (_, []) => true
      | _ => isNonDecimalInteger l
      end
  end.

(** The global [isNaN] applied to a string: [Number(s)] is [NaN]. *)
Definition isNaN (s : string) : bool := negb (isNumericString s).

(** The global [parseFloat]: leading white space is skipped, then the
    longest prefix that is a signed decimal literal gives the value;
    [NaN] when there is none. *)
Definition parseFloat (s : string) : JSNumber :=
  match scanDecimal (trimStartChars (chars s)) with
  | Some (n, _) => n
  | None => NaN
  end.

(** ToBoolean on a number: [NaN] and zero are falsy. *)
Definition truthy (n : JSNumber) : bool :=
  match n with
  | NaN => false
  | Infinity _ => true
  | Finite _ m _ => negb (m =? 0)%N
  end.

End JSNumeric.

(* ===================================================================== *)
(** ** Exceptions *)
(* ===================================================================== *)

Inductive JSError : Type :=
| Error (message : string)
| TypeError (message : string).

Inductive result (A : Type) : Type :=
| Ok (a : A)
| Throw (e : JSError).
Arguments Ok {A} a.
Arguments Throw {A} e.

#[global] Instance result_ret : MRet result := fun A a => Ok a.
#[global] Instance result_bind : MBind result := fun A B f r =>
  match r with
  | Ok a => f a
  | Throw e => Throw e
  end.
#[global] Instance result_fmap : FMap result := fun A B f r =>
  match r with
  | Ok a => Ok (f a)
  | Throw e => Throw e
  end.

Definition returns {A} (r : result A) : Prop := exists a, r = Ok a.

(* ===================================================================== *)
(** ** The data model *)
(* ===================================================================== *)

Inductive ColumnType : Type := quantitative | nominal | ordinal | temporal.

#[global] Instance ColumnType_eq_dec : EqDecision ColumnType.
Proof. solve_decision. Defined.

Definition ColumnType_eqb (a b : ColumnType) : bool := bool_decide (a = b).

(** A cell as the program can meet it at run time.  [VDate src] is the
    object [new Date(src)]; [VObject] is any other object (a nested array
    or object of a JSON file); [VUndefined] is what reading a missing
    property gives. *)
Inductive Cell : Type :=
| VUndefined
| VNull
| VBool (b : bool)
| VNum (n : JSNumber)
| VStr (s : string)
| VDate (src : string)
| VObject.

Abbreviation Row := (gmap string Cell).
Abbreviation Dataset := (list (gmap string Cell)).

(** [row[column]] *)
Definition get (row : Row) (column : string) : Cell :=
  default VUndefined (row !! column).

(* ===================================================================== *)
(** ** DataManager (modules/data-manager.js) *)
(* ===================================================================== *)

Module DataManager.
Import JSString JSNumeric.

Definition quote : ascii := ascii_of_N 34.
Definition apostrophe : ascii := ascii_of_N 39.
Definition comma : ascii := ","%char.
Definition tab : ascii := ascii_of_N 9.
Definition newline : ascii := ascii_of_N 10.

(** [parseCSVLine(line, delimiter)]: the [while] loop over the
    characters, with the loop state [values], [current], [inQuotes]. *)
Fixpoint parseCSVLineLoop (delimiter : ascii) (values : list string)
    (current : list ascii) (inQuotes : bool) (line : list ascii)
  : list string :=
  match line with
  | [] => values ++ [str (trimChars current)]
  | char :: rest =>
      if Ascii.eqb char quote then
        match rest with
        | next :: rest' =>
            if inQuotes && Ascii.eqb next quote
            then parseCSVLineLoop delimiter values (current ++ [quote]) inQuotes rest'
            else parseCSVLineLoop delimiter values current (negb inQuotes) rest
        | [] => parseCSVLineLoop delimiter values current (negb inQuotes) rest
        end
      else if Ascii.eqb char delimiter && negb inQuotes then
        parseCSVLineLoop delimiter (values ++ [str (trimChars current)]) [] inQuotes rest
      else
        parseCSVLineLoop delimiter values (current ++ [char]) inQuotes rest
  end.

Definition parseCSVLine (line : string) (delimiter : ascii) : list string :=
  parseCSVLineLoop delimiter [] [] false (chars line).

(** An anchored pattern made of digit places and literal characters
    matches the texts of its length that have a digit at every digit place
    and the literal character at every other place. *)
Definition matchesShape (shape : list (option ascii)) (l : list ascii) : bool :=
  (List.length shape =? List.length l)%nat
  && forallb (fun '(p, c) => match p with
                             | None => isDigit c
                             | Some d => Ascii.eqb d c
                             end) (combine shape l).

(** A digit place and a literal character of a pattern. *)
Definition d : option ascii := None.
Definition lit (c : ascii) : option ascii := Some c.

(** The three anchored patterns of [isDate]. *)
Definition datePatterns : list (list (option ascii)) :=
  [ [d; d; d; d; lit "-"; d; d; lit "-"; d; d];      (* /^\d{4}-\d{2}-\d{2}$/ *)
    [d; d; lit "/"; d; d; lit "/"; d; d; d; d];      (* /^\d{2}\/\d{2}\/\d{4}$/ *)
    [d; d; lit "-"; d; d; lit "-"; d; d; d; d] ].    (* /^\d{2}-\d{2}-\d{4}$/ *)

(** [isDate(value)] *)
Definition isDate (value : string) : bool :=
  existsb (fun pattern => matchesShape pattern (chars value)) datePatterns.

(** The quote removal of [parseValue], on the trimmed value. *)
Definition stripQuotes (value : list ascii) : list ascii :=
  if (startsWithChar quote value && endsWithChar quote value)
     || (startsWithChar apostrophe value && endsWithChar apostrophe value)
  then slice_1_m1 value
  else value.

(** [parseValue(value)] *)
Definition parseValue (value : string) : Cell :=
  if String.eqb value "" then VNull
  else
    let value := str (stripQuotes (trimChars (chars value))) in
    if negb (isNaN value) && negb (String.eqb value "") then
      VNum (parseFloat value)
    else if isDate value then
      VDate value
    else
      VStr value.

(** [parseValue(values[index])]; an index past the end reads
    [undefined], which [parseValue] turns into [null]. *)
Definition parseValueAt (values : list string) (index : nat) : Cell :=
  match values !! index with
  | Some value => parseValue value
  | None => VNull
  end.

(** What a row under construction inherits from.  It starts as [{}],
    which inherits from [Object.prototype]; there lives the accessor
    [__proto__], whose setter makes the value assigned the prototype of
    the row when that value is an object or [null] and does nothing for a
    value of another kind. *)
Inductive Prototype : Type :=
| ObjectPrototype      (* [Object.prototype] *)
| ObjectCell           (* a cell that is an object, itself below [Object.prototype] *)
| NoPrototype.         (* [null] *)

Definition protoName : string := "__proto__".

(** [row[header] = value].  Whatever [Object.prototype] or a [Date] hands
    down is a writable data property, except [__proto__]: under any other
    name the assignment makes or replaces an own property of the row.
    Under [__proto__] it reaches the setter as long as [Object.prototype]
    is above the row; once the prototype is [null] it makes an own
    property like any other name. *)
Definition assign (header : string) (value : Cell) (row : Row)
    (proto : Prototype) : Row * Prototype :=
  if String.eqb header protoName then
    match proto with
    | NoPrototype => (<[header := value]> row, proto)
    | ObjectPrototype | ObjectCell =>
        match value with
        | VNull => (row, NoPrototype)
        | VDate _ | VObject => (row, ObjectCell)
        | VUndefined | VBool _ | VNum _ | VStr _ => (row, proto)
        end
    end
  else (<[header := value]> row, proto).

(** [headers.forEach((header, index) => row[header] = ...)] *)
Fixpoint fillRow (values : list string) (index : nat) (headers : list string)
    (row : Row) (proto : Prototype) : Row * Prototype :=
  match headers with
  | [] => (row, proto)
  | header :: headers' =>
      let '(row', proto') := assign header (parseValueAt values index) row proto in
      fillRow values (S index) headers' row' proto'
  end.

(** The row pushed to the data set: the own properties of [row] after
    the loop over the headers, started from [{}]. *)
Definition buildRow (headers values : list string) : Row :=
  fst (fillRow values 0 headers ∅ ObjectPrototype).

(** The [for] loop of [parseCSV] over the lines after the header. *)
Fixpoint parseRows (headers : list string) (delimiter : ascii)
    (lines : list string) : Dataset :=
  match lines with
  | [] => []
  | line :: lines' =>
      let values := parseCSVLine line delimiter in
      if negb (List.length values =? List.length headers)%nat
      then parseRows headers delimiter lines'
      else buildRow headers values :: parseRows headers delimiter lines'
  end.

(** [parseCSV(content, delimiter)] *)
Definition parseCSV (content : string) (delimiter : ascii) : result Dataset :=
  let lines := split newline (trim content) in
  match lines with
  | header :: rest =>
      if (List.length lines <? 2)%nat then
        Throw (Error "CSV file must have at least a header and one data row")
      else
        let headers := parseCSVLine header delimiter in
        Ok (parseRows headers delimiter rest)
  | [] => Throw (Error "CSV file must have at least a header and one data row")
  end.

(** [parseTSV(content)] *)
Definition parseTSV (content : string) : result Dataset :=
  parseCSV content tab.

Definition notNullish (val : Cell) : bool :=
  match val with
  | VUndefined | VNull => false
  | _ => true
  end.
Definition isNumber (val : Cell) : bool :=
  match val with VNum _ => true | _ => false end.
Definition isDateObject (val : Cell) : bool :=
  match val with VDate _ => true | _ => false end.
Definition isString (val : Cell) : bool :=
  match val with VStr _ => true | _ => false end.
Definition asString (val : Cell) : option string :=
  match val with VStr s => Some s | _ => None end.

(** [[...new Set(values)]]: the distinct values in order of first
    occurrence. *)
Fixpoint distinctFrom (seen : list string) (values : list string) : list string :=
  match values with
  | [] => []
  | v :: values' =>
      if includes seen v then distinctFrom seen values'
      else v :: distinctFrom (v :: seen) values'
  end.
Definition distinct (values : list string) : list string := distinctFrom [] values.

Definition ordinalPatterns : list (list string) :=
  [ ["low"; "medium"; "high"];
    ["small"; "medium"; "large"];
    ["poor"; "fair"; "good"; "excellent"];
    ["never"; "rarely"; "sometimes"; "often"; "always"] ].

(** The loop over [ordinalPatterns]: some pattern has every one of its
    words among [lowerValues]. *)
Definition matchesOrdinalPattern (lowerValues : list string) : bool :=
  existsb (fun pattern => forallb (fun p => includes lowerValues p) pattern)
          ordinalPatterns.

(** The non-null values of a column. *)
Definition columnValues (data : Dataset) (column : string) : list Cell :=
  List.filter notNullish (map (fun row => get row column) data).

(** The guard of the small-vocabulary branch:
    [uniqueValues.length < values.length * 0.5 && uniqueValues.length < 20]. *)
Definition fewDistinct (uniqueValues : list string) (values : list Cell) : bool :=
  (2 * List.length uniqueValues <? List.length values)%nat
  && (List.length uniqueValues <? 20)%nat.

(** [inferColumnType(data, column)], for [data] an array of rows; the
    callers pass the loaded data set. *)
Definition inferColumnType (data : Dataset) (column : string) : ColumnType :=
  if (List.length data =? 0)%nat then nominal
  else
    let values := columnValues data column in
    if (List.length values =? 0)%nat then nominal
    else
      let numericValues := List.filter isNumber values in
      if (List.length numericValues =? List.length values)%nat then quantitative
      else
        let dateValues := List.filter isDateObject values in
        if (List.length dateValues =? List.length values)%nat then temporal
        else
          let stringValues := List.filter isString values in
          if (List.length stringValues =? List.length values)%nat then
            let uniqueValues := distinct (omap asString stringValues) in
            if fewDistinct uniqueValues values then
              let lowerValues := map toLowerCase uniqueValues in
              if matchesOrdinalPattern lowerValues then ordinal
              else if forallb (fun v => (JSString.length v <=? 3)%nat) uniqueValues
                   then nominal
                   else ordinal
            else nominal
          else nominal.

(** [error.message] *)
Definition messageOf (e : JSError) : string :=
  match e with
  | Error message => message
  | TypeError message => message
  end.

(** [parseJSON(content)].  The built-in [JSON.parse] is the argument
    [jsonParse]: it throws on malformed text, and returns [Some data] for
    an array and [None] for any other value.  Every failure, the one
    raised for a non-array included, leaves through the [catch] clause. *)
Definition parseJSON (jsonParse : string -> result (option Dataset))
    (content : string) : result Dataset :=
  match jsonParse content with
  | Ok (Some data) => Ok data
  | Ok None =>
      Throw (Error ("Invalid JSON format: "
                    +:+ "JSON data must be an array of objects"))
  | Throw e => Throw (Error ("Invalid JSON format: " +:+ messageOf e))
  end.

(** [content.includes(c)] for a one-character [c]. *)
Definition includesChar (c : ascii) (content : string) : bool :=
  existsb (Ascii.eqb c) (chars content).

(** [try { return parse(content); } catch (error) { }]: the result of
    the parser, or [otherwise] when it throws. *)
Definition tryParse (parsed : result Dataset) (otherwise : result Dataset)
  : result Dataset :=
  match parsed with
  | Ok data => Ok data
  | Throw _ => otherwise
  end.

(** [parseAutoDetect(content)] *)
Definition parseAutoDetect (jsonParse : string -> result (option Dataset))
    (content : string) : result Dataset :=
  let failure :=
    Throw (Error ("Could not detect file format. "
                  +:+ "Please ensure it is CSV, TSV, or JSON.")) in
  let tryJSON :=
    if startsWithChar "["%char (chars (trim content))
       || startsWithChar "{"%char (chars (trim content))
    then tryParse (parseJSON jsonParse content) failure
    else failure in
  let tryTSV :=
    if includesChar tab content
    then tryParse (parseTSV content) tryJSON
    else tryJSON in
  if includesChar comma content
  then tryParse (parseCSV content comma) tryTSV
  else tryTSV.

End DataManager.

(* ===================================================================== *)
(** ** Field mappings and display configuration *)
(* ===================================================================== *)

(** A mapped column: [{ column, type }]. *)
Module Mapping.
Record t : Type := { column : string; type : ColumnType }.
End Mapping.

(** The mappings object: each channel holds a mapping or [null]. *)
Module Mappings.
Record t : Type := {
  x : option Mapping.t;
  y : option Mapping.t;
  color : option Mapping.t;
  size : option Mapping.t
}.
Definition empty : t := {| x := None; y := None; color := None; size := None |}.
End Mappings.

(** The display configuration; an absent property is [None]. *)
Module Config.
Record t : Type := {
  title : option string;
  width : option JSNumber;
  height : option JSNumber
}.
End Config.

(** ToBoolean of a mapping slot: an object is truthy, [null] is not. *)
Definition isSet {A} (slot : option A) : bool :=
  match slot with Some _ => true | None => false end.

(** A mapping as a caller may really pass it.  [ChartBuilder] stores
    [{ column, type }]; [ChartBuilderV2.updateFieldMapping] stores
    [{ field, type }], a record without the property [column], which then
    reads as [undefined] ([None]). *)
Module Passed.
Record t : Type := { column : option string; type : ColumnType }.

Record mappings : Type := {
  x : option t;
  y : option t;
  color : option t;
  size : option t
}.

Definition ofMapping (m : Mapping.t) : t :=
  {| column := Some (Mapping.column m); type := Mapping.type m |}.

Definition ofMappings (m : Mappings.t) : mappings :=
  {| x := ofMapping <$> Mappings.x m; y := ofMapping <$> Mappings.y m;
     color := ofMapping <$> Mappings.color m;
     size := ofMapping <$> Mappings.size m |}.

(** [{ field, type }] *)
Definition fieldRecord (field : string) (type : ColumnType) : t :=
  {| column := None; type := type |}.

(** The slot is empty or its record has a column name. *)
Definition hasColumn (slot : option t) : bool :=
  match slot with
  | Some m => isSet (column m)
  | None => true
  end.

Definition hasColumns (m : mappings) : bool :=
  hasColumn (x m) && hasColumn (y m) && hasColumn (color m) && hasColumn (size m).
End Passed.

(** Reading a property through a slot: a [TypeError] on [null]. *)
Definition deref {A} (slot : option A) : result A :=
  match slot with
  | Some a => Ok a
  | None => Throw (TypeError "Cannot read properties of null")
  end.

(** [s || fallback] on an optional string: the empty string is falsy. *)
Definition strOr (s : option string) (fallback : string) : string :=
  match s with
  | Some v => if String.eqb v "" then fallback else v
  | None => fallback
  end.

(** [n || fallback] on an optional number: [NaN] and 0 are falsy. *)
Definition numOr (n : option JSNumber) (fallback : JSNumber) : JSNumber :=
  match n with
  | Some v => if JSNumeric.truthy v then v else fallback
  | None => fallback
  end.

(* ===================================================================== *)
(** ** DragDropManager (modules/drag-drop.js) *)
(* ===================================================================== *)

Module DragDropManager.

Definition validMappings : list (string * list ColumnType) :=
  [ ("x", [nominal; ordinal; quantitative; temporal]);
    ("y", [quantitative]);
    ("color", [nominal; ordinal; quantitative]);
    ("size", [quantitative]) ].

(** [validMappings[encoding]] *)
Fixpoint lookupEncoding (encoding : string) (table : list (string * list ColumnType))
  : option (list ColumnType) :=
  match table with
  | [] => None
  | (name, types) :: table' =>
      if String.eqb name encoding then Some types
      else lookupEncoding encoding table'
  end.

(** [types.includes(type)] *)
Definition includesType (types : list ColumnType) (type : ColumnType) : bool :=
  existsb (ColumnType_eqb type) types.

(** [validateMapping(encoding, dragData)] *)
Definition validateMapping (encoding : string) (dragData : Mapping.t) : bool :=
  let type := Mapping.type dragData in
  match lookupEncoding encoding validMappings with
  | None => false
  | Some types =>
      if negb (includesType types type) then false
      else if String.eqb encoding "y" && includesType [nominal; ordinal] type
           then true
           else true
  end.

(** [getEncodingRecommendations(column, type)]: primary and secondary
    channels. *)
Definition getEncodingRecommendations (type : ColumnType)
  : list string * list string :=
  match type with
  | quantitative => (["x"; "y"; "size"], ["color"])
  | nominal => (["x"; "color"], ["y"])
  | ordinal => (["x"; "color"], ["y"])
  | temporal => (["x"], ["color"])
  end.

End DragDropManager.

(* ===================================================================== *)
(** ** The chart specification *)
(* ===================================================================== *)

Module Mark.
Record t : Type := {
  type : string;
  tooltip : bool;
  size : option JSNumber;
  point : option bool;
  stroke : option string;
  strokeWidth : option JSNumber
}.
(** [{ type, tooltip: true }] *)
Definition plain (type : string) : t :=
  {| type := type; tooltip := true; size := None; point := None;
     stroke := None; strokeWidth := None |}.
End Mark.

Module Axis.
Record t : Type := {
  grid : bool;
  tickCount : Z;
  labelAngle : Z;
  format : option string
}.
End Axis.

Module Scale.
Record t : Type := {
  scheme : option string;
  reverse : option bool;
  range : option (list JSNumber);
  nice : option bool
}.
End Scale.

(** One entry of the encoding object. *)
Module Channel.
Record t : Type := {
  field : string;
  type : ColumnType;
  title : string;
  axis : option Axis.t;
  scale : option Scale.t;
  legendTitle : option string
}.
End Channel.

Module Encoding.
Record t : Type := {
  x : option Channel.t;
  y : option Channel.t;
  color : option Channel.t;
  size : option Channel.t
}.
End Encoding.

Module Title.
Record t : Type := {
  text : string;
  anchor : string;
  fontSize : JSNumber;
  fontWeight : string
}.
End Title.

(** The constant object returned by [buildConfig]. *)
Module ViewConfig.
Record fonts : Type := {
  labelFontSize : JSNumber;
  titleFontSize : JSNumber;
  titleFontWeight : string
}.
Record t : Type := {
  continuousWidth : JSNumber;
  continuousHeight : JSNumber;
  axis : fonts;
  legend : fonts;
  titleFontSize' : JSNumber;
  titleFontWeight' : string;
  titleAnchor : string
}.
End ViewConfig.

(** The Vega-Lite specification built by [buildSpec]. *)
Module Spec.
Record t : Type := {
  schema : string;
  description : string;
  values : Dataset;
  mark : Mark.t;
  encoding : Encoding.t;
  width : JSNumber;
  height : JSNumber;
  title : option Title.t;
  config : ViewConfig.t
}.
End Spec.

(** An entry of the encoding metadata of the full specification. *)
Module EncodingMeta.
Record t : Type := { field : string; type : ColumnType; title : string }.
End EncodingMeta.

Module Interactions.
Record t : Type := { tooltip : bool; zoom : bool; brush : bool; click : string }.
End Interactions.

(** The full specification built by [buildFullSpec]. *)
Module FullSpec.
Record t : Type := {
  id : string;
  version : string;
  created : string;
  title : string;
  description : string;
  dataSource : string;
  dataFormat : string;
  values : Dataset;
  dataName : string;
  chartType : string;
  encoding : list (string * EncodingMeta.t);
  width : JSNumber;
  height : JSNumber;
  padding : JSNumber * JSNumber * JSNumber * JSNumber;
  background : string;
  titleText : string;
  titleFontSize : JSNumber;
  titleAnchor : string;
  interactions : Interactions.t;
  vegaLiteSpec : Spec.t
}.
End FullSpec.

(** What the builder reads from the environment: the clock and the random
    source behind [generateChartId] and the creation time stamp. *)
Module Env.
Record t : Type := {
  now : N;                (* Date.now() *)
  nowISO : string;        (* new Date().toISOString() *)
  randomSuffix : string   (* Math.random().toString(36).substr(2, 9) *)
}.
End Env.

(* ===================================================================== *)
(** ** SpecBuilder (modules/spec-builder.js) *)
(* ===================================================================== *)

Module SpecBuilder.
Import JSString.

Definition version : string := "1.0".
Definition vegaLiteVersion : string := "v5".

Definition markConfigs : list (string * Mark.t) :=
  [ ("bar", Mark.plain "bar");
    ("scatter", {| Mark.type := "circle"; Mark.tooltip := true;
                   Mark.size := Some (num 60); Mark.point := None;
                   Mark.stroke := None; Mark.strokeWidth := None |});
    ("line", {| Mark.type := "line"; Mark.tooltip := true;
                Mark.size := None; Mark.point := Some true;
                Mark.stroke := None; Mark.strokeWidth := None |});
    ("area", Mark.plain "area");
    ("histogram", Mark.plain "bar");
    ("boxplot", Mark.plain "boxplot") ].

(** [markConfigs[chartType]] *)
Fixpoint lookupMark (chartType : string) (table : list (string * Mark.t))
  : option Mark.t :=
  match table with
  | [] => None
  | (name, mark) :: table' =>
      if String.eqb name chartType then Some mark
      else lookupMark chartType table'
  end.

(** [buildMark(chartType, mappings)] *)
Definition buildMark (chartType : string) (mappings : Mappings.t) : Mark.t :=
  let baseConfig := default (Mark.plain chartType) (lookupMark chartType markConfigs) in
  if isSet (Mappings.color mappings) then
    {| Mark.type := Mark.type baseConfig;
       Mark.tooltip := Mark.tooltip baseConfig;
       Mark.size := Mark.size baseConfig;
       Mark.point := Mark.point baseConfig;
       Mark.stroke := Some "white";
       Mark.strokeWidth := Some (Finite false 5 (-1)) |}
  else baseConfig.

(** [buildAxisConfig(axis, type)] *)
Definition buildAxisConfig (axis : string) (type : ColumnType) : Axis.t :=
  let tickCount := if String.eqb axis "x" then 10%Z else 5%Z in
  match type with
  | temporal =>
      {| Axis.grid := true; Axis.tickCount := tickCount;
         Axis.labelAngle := (-45)%Z; Axis.format := Some "%b %Y" |}
  | quantitative =>
      {| Axis.grid := true; Axis.tickCount := tickCount;
         Axis.labelAngle := 0%Z; Axis.format := Some ".1f" |}
  | nominal | ordinal =>
      {| Axis.grid := true; Axis.tickCount := tickCount;
         Axis.labelAngle := if String.eqb axis "x" then (-45)%Z else 0%Z;
         Axis.format := None |}
  end.

(** [buildColorScale(type)] *)
Definition buildColorScale (type : ColumnType) : Scale.t :=
  match type with
  | nominal =>
      {| Scale.scheme := Some "category10"; Scale.reverse := None;
         Scale.range := None; Scale.nice := None |}
  | ordinal =>
      {| Scale.scheme := Some "blues"; Scale.reverse := Some false;
         Scale.range := None; Scale.nice := None |}
  | quantitative =>
      {| Scale.scheme := Some "viridis"; Scale.reverse := Some false;
         Scale.range := None; Scale.nice := None |}
  | temporal =>
      {| Scale.scheme := Some "category10"; Scale.reverse := None;
         Scale.range := None; Scale.nice := None |}
  end.

(** [buildSizeScale(type)] *)
Definition buildSizeScale (type : ColumnType) : Scale.t :=
  match type with
  | quantitative =>
      {| Scale.scheme := None; Scale.reverse := None;
         Scale.range := Some [num 50; num 400]; Scale.nice := Some true |}
  | ordinal =>
      {| Scale.scheme := None; Scale.reverse := None;
         Scale.range := Some [num 50; num 200; num 350]; Scale.nice := Some false |}
  | nominal | temporal =>
      {| Scale.scheme := None; Scale.reverse := None;
         Scale.range := Some [num 50; num 200]; Scale.nice := None |}
  end.

Definition underscore : ascii := "_"%char.
Definition space : ascii := " "%char.

(** [.replace(/([A-Z])/g, ' $1')] *)
Fixpoint spaceBeforeCapitals (l : list ascii) : list ascii :=
  match l with
  | [] => []
  | c :: r => if inRange 65 90 c then space :: c :: spaceBeforeCapitals r
              else c :: spaceBeforeCapitals r
  end.

(** [.replace(/^./, str => str.toUpperCase())]: the dot matches any
    character but a line terminator; the sharp s becomes two capitals.
    The two letters whose capitals lie above 255 (micro sign, y with
    diaeresis) are left as they are. *)
Definition upperFirst (l : list ascii) : list ascii :=
  match l with
  | [] => []
  | c :: r =>
      if (code c =? 10)%N || (code c =? 13)%N then l
      else if (code c =? 223)%N then "S"%char :: "S"%char :: r
      else upperChar c :: r
  end.

(** [formatTitle(columnName)] *)
Definition formatTitle (columnName : string) : string :=
  let s1 := map (fun c => if Ascii.eqb c underscore then space else c)
                (chars columnName) in
  str (trimChars (upperFirst (spaceBeforeCapitals s1))).

(** The x and y entries of [buildEncoding]. *)
Definition positional (axis : string) (slot : option Mapping.t)
  : result (option Channel.t) :=
  if isSet slot then
    m ← deref slot;
    mret (Some {| Channel.field := Mapping.column m;
                  Channel.type := Mapping.type m;
                  Channel.title := formatTitle (Mapping.column m);
                  Channel.axis := Some (buildAxisConfig axis (Mapping.type m));
                  Channel.scale := None;
                  Channel.legendTitle := None |})
  else mret None.

(** The color and size entries of [buildEncoding]. *)
Definition scaled (buildScale : ColumnType -> Scale.t) (slot : option Mapping.t)
  : result (option Channel.t) :=
  if isSet slot then
    m ← deref slot;
    mret (Some {| Channel.field := Mapping.column m;
                  Channel.type := Mapping.type m;
                  Channel.title := formatTitle (Mapping.column m);
                  Channel.axis := None;
                  Channel.scale := Some (buildScale (Mapping.type m));
                  Channel.legendTitle := Some (formatTitle (Mapping.column m)) |})
  else mret None.

(** [buildEncoding(mappings)] *)
Definition buildEncoding (mappings : Mappings.t) : result Encoding.t :=
  ex ← positional "x" (Mappings.x mappings);
  ey ← positional "y" (Mappings.y mappings);
  ecolor ← scaled buildColorScale (Mappings.color mappings);
  esize ← scaled buildSizeScale (Mappings.size mappings);
  mret {| Encoding.x := ex; Encoding.y := ey;
          Encoding.color := ecolor; Encoding.size := esize |}.

(** [buildConfig(chartType)] *)
Definition buildConfig (chartType : string) : ViewConfig.t :=
  let fonts := {| ViewConfig.labelFontSize := num 11;
                  ViewConfig.titleFontSize := num 12;
                  ViewConfig.titleFontWeight := "bold" |} in
  {| ViewConfig.continuousWidth := num 400;
     ViewConfig.continuousHeight := num 300;
     ViewConfig.axis := fonts;
     ViewConfig.legend := fonts;
     ViewConfig.titleFontSize' := num 16;
     ViewConfig.titleFontWeight' := "bold";
     ViewConfig.titleAnchor := "start" |}.

(** [buildSpec({ data, chartType, mappings, config })] *)
Definition buildSpec (data : Dataset) (chartType : string)
    (mappings : Mappings.t) (config : Config.t) : result Spec.t :=
  encoding ← buildEncoding mappings;
  mret {| Spec.schema := "https://vega.github.io/schema/vega-lite/"
                           +:+ vegaLiteVersion +:+ ".json";
          Spec.description := strOr (Config.title config) (chartType +:+ " chart");
          Spec.values := data;
          Spec.mark := buildMark chartType mappings;
          Spec.encoding := encoding;
          Spec.width := numOr (Config.width config) (num 600);
          Spec.height := numOr (Config.height config) (num 400);
          Spec.title :=
            match Config.title config with
            | Some t => if String.eqb t "" then None
                        else Some {| Title.text := t; Title.anchor := "start";
                                     Title.fontSize := num 16;
                                     Title.fontWeight := "bold" |}
            | None => None
            end;
          Spec.config := buildConfig chartType |}.

(** What [formatTitle(undefined)] throws, at [columnName.replace]. *)
Definition replaceOfUndefined : JSError :=
  TypeError "Cannot read properties of undefined (reading 'replace')".

(** The x and y entries of [buildEncoding], for records as passed: the
    entry has the column for [field] and its formatted name for [title];
    without a column, [formatTitle] throws while the entry is built. *)
Definition positionalOf (axis : string) (slot : option Passed.t)
  : result (option Channel.t) :=
  match slot with
  | Some m =>
      match Passed.column m with
      | Some column =>
          mret (Some {| Channel.field := column;
                        Channel.type := Passed.type m;
                        Channel.title := formatTitle column;
                        Channel.axis := Some (buildAxisConfig axis (Passed.type m));
                        Channel.scale := None;
                        Channel.legendTitle := None |})
      | None => Throw replaceOfUndefined
      end
  | None => mret None
  end.

(** The color and size entries of [buildEncoding], for records as passed. *)
Definition scaledOf (buildScale : ColumnType -> Scale.t) (slot : option Passed.t)
  : result (option Channel.t) :=
  match slot with
  | Some m =>
      match Passed.column m with
      | Some column =>
          mret (Some {| Channel.field := column;
                        Channel.type := Passed.type m;
                        Channel.title := formatTitle column;
                        Channel.axis := None;
                        Channel.scale := Some (buildScale (Passed.type m));
                        Channel.legendTitle := Some (formatTitle column) |})
      | None => Throw replaceOfUndefined
      end
  | None => mret None
  end.

(** [buildEncoding(mappings)], for records as passed. *)
Definition buildEncodingOf (mappings : Passed.mappings) : result Encoding.t :=
  ex ← positionalOf "x" (Passed.x mappings);
  ey ← positionalOf "y" (Passed.y mappings);
  ecolor ← scaledOf buildColorScale (Passed.color mappings);
  esize ← scaledOf buildSizeScale (Passed.size mappings);
  mret {| Encoding.x := ex; Encoding.y := ey;
          Encoding.color := ecolor; Encoding.size := esize |}.

(** [buildMark(chartType, mappings)], for records as passed. *)
Definition buildMarkOf (chartType : string) (mappings : Passed.mappings) : Mark.t :=
  let baseConfig := default (Mark.plain chartType) (lookupMark chartType markConfigs) in
  if isSet (Passed.color mappings) then
    {| Mark.type := Mark.type baseConfig;
       Mark.tooltip := Mark.tooltip baseConfig;
       Mark.size := Mark.size baseConfig;
       Mark.point := Mark.point baseConfig;
       Mark.stroke := Some "white";
       Mark.strokeWidth := Some (Finite false 5 (-1)) |}
  else baseConfig.

(** [buildSpec({ data, chartType, mappings, config })], for records as
    passed. *)
Definition buildSpecOf (data : Dataset) (chartType : string)
    (mappings : Passed.mappings) (config : Config.t) : result Spec.t :=
  let mark := buildMarkOf chartType mappings in
  encoding ← buildEncodingOf mappings;
  mret {| Spec.schema := "https://vega.github.io/schema/vega-lite/"
                           +:+ vegaLiteVersion +:+ ".json";
          Spec.description := strOr (Config.title config) (chartType +:+ " chart");
          Spec.values := data;
          Spec.mark := mark;
          Spec.encoding := encoding;
          Spec.width := numOr (Config.width config) (num 600);
          Spec.height := numOr (Config.height config) (num 400);
          Spec.title :=
            match Config.title config with
            | Some t => if String.eqb t "" then None
                        else Some {| Title.text := t; Title.anchor := "start";
                                     Title.fontSize := num 16;
                                     Title.fontWeight := "bold" |}
            | None => None
            end;
          Spec.config := buildConfig chartType |}.

(** The entries of the mappings object, in the order of its keys. *)
Definition entries (mappings : Mappings.t) : list (string * option Mapping.t) :=
  [ ("x", Mappings.x mappings); ("y", Mappings.y mappings);
    ("color", Mappings.color mappings); ("size", Mappings.size mappings) ].

(** [buildEncodingMetadata(mappings)] *)
Definition buildEncodingMetadata (mappings : Mappings.t)
  : list (string * EncodingMeta.t) :=
  omap (fun '(encoding, slot) =>
          match slot with
          | Some m => Some (encoding,
                            {| EncodingMeta.field := Mapping.column m;
                               EncodingMeta.type := Mapping.type m;
                               EncodingMeta.title := formatTitle (Mapping.column m) |})
          | None => None
          end) (entries mappings).

(** [generateChartId()] *)
Definition generateChartId (env : Env.t) : string :=
  "chart_" +:+ pretty (Env.now env) +:+ "_" +:+ Env.randomSuffix env.

(** [buildFullSpec({ data, chartType, mappings, config })] *)
Definition buildFullSpec (env : Env.t) (data : Dataset) (chartType : string)
    (mappings : Mappings.t) (config : Config.t) : result FullSpec.t :=
  vegaSpec ← buildSpec data chartType mappings config;
  let encodings :=
    List.length (List.filter (fun '(_, slot) => isSet slot) (entries mappings)) in
  mret {| FullSpec.id := generateChartId env;
          FullSpec.version := version;
          FullSpec.created := Env.nowISO env;
          FullSpec.title := strOr (Config.title config) "Untitled Chart";
          FullSpec.description :=
            chartType +:+ " chart with " +:+ pretty encodings +:+ " encodings";
          FullSpec.dataSource := "inline";
          FullSpec.dataFormat := "json";
          FullSpec.values := data;
          FullSpec.dataName := "chart_data";
          FullSpec.chartType := chartType;
          FullSpec.encoding := buildEncodingMetadata mappings;
          FullSpec.width := numOr (Config.width config) (num 600);
          FullSpec.height := numOr (Config.height config) (num 400);
          FullSpec.padding := (num 20, num 30, num 40, num 50);
          FullSpec.background := "#ffffff";
          FullSpec.titleText := strOr (Config.title config) "";
          FullSpec.titleFontSize := num 16;
          FullSpec.titleAnchor := "middle";
          FullSpec.interactions :=
            {| Interactions.tooltip := true; Interactions.zoom := false;
               Interactions.brush := false; Interactions.click := "none" |};
          FullSpec.vegaLiteSpec := vegaSpec |}.

Definition supportedTypes : list string :=
  ["bar"; "scatter"; "line"; "area"; "histogram"; "boxplot"].

Definition pushIf (cond : bool) (message : string) (errors : list string)
  : list string :=
  if cond then errors ++ [message] else errors.

Definition typeIs (t : ColumnType) (slot : option Mapping.t) : result bool :=
  m ← deref slot; mret (ColumnType_eqb (Mapping.type m) t).

(** [validateChartConfig({ data, chartType, mappings, config })]; [data]
    is an array here.  The [line] and [histogram] cases read
    [mappings.x.type] whether or not [mappings.x] is set. *)
Definition validateChartConfig (data : Dataset) (chartType : string)
    (mappings : Mappings.t) (config : Config.t) : result (list string) :=
  let mx := Mappings.x mappings in
  let my := Mappings.y mappings in
  let errors := pushIf (List.length data =? 0)%nat
                       "Data must be a non-empty array" [] in
  let errors := pushIf (negb (includes supportedTypes chartType))
                       ("Unsupported chart type: " +:+ chartType) errors in
  let errors := pushIf (negb (isSet mx) && negb (isSet my))
                       "Chart must have at least x or y encoding" errors in
  if String.eqb chartType "scatter" then
    mret (pushIf (negb (isSet mx) || negb (isSet my))
                 "Scatter plot requires both x and y encodings" errors)
  else if String.eqb chartType "line" then
    let errors := pushIf (negb (isSet mx) || negb (isSet my))
                         "Line chart requires both x and y encodings" errors in
    isTemporal ← typeIs temporal mx;
    isQuantitative ← typeIs quantitative mx;
    mret (pushIf (negb isTemporal && negb isQuantitative)
                 "Line chart x-axis should be temporal or quantitative" errors)
  else if String.eqb chartType "histogram" then
    let errors := pushIf (negb (isSet mx)) "Histogram requires x encoding" errors in
    isQuantitative ← typeIs quantitative mx;
    mret (pushIf (negb isQuantitative)
                 "Histogram x-axis must be quantitative" errors)
  else mret errors.

End SpecBuilder.

(* ===================================================================== *)
(** ** ChartRenderer (modules/chart-renderer.js) *)
(* ===================================================================== *)

Module ChartRenderer.

(** What [validateSpec] reads of a specification object: the truthiness
    of its properties. *)
Record Shape : Type := {
  hasData : bool;
  hasMark : bool;
  hasLayer : bool;
  encodingXY : option (bool * bool)   (* [None]: no encoding object *)
}.

(** The shape of a specification built by [buildSpec]: its [data], [mark]
    and [encoding] properties are objects, and it has no [layer]. *)
Definition shapeOf (spec : Spec.t) : Shape :=
  {| hasData := true;
     hasMark := true;
     hasLayer := false;
     encodingXY := Some (isSet (Encoding.x (Spec.encoding spec)),
                         isSet (Encoding.y (Spec.encoding spec))) |}.

(** [validateSpec(spec)] *)
Definition validateSpec (spec : Shape) : list string :=
  let errors := SpecBuilder.pushIf (negb (hasData spec))
                  "Chart specification must include data" [] in
  let errors := SpecBuilder.pushIf (negb (hasMark spec) && negb (hasLayer spec))
                  "Chart specification must include mark or layer" errors in
  let errors := SpecBuilder.pushIf (negb (isSet (encodingXY spec)))
                  "Chart specification must include encoding" errors in
  match encodingXY spec with
  | Some (hasX, hasY) =>
      SpecBuilder.pushIf (negb hasX && negb hasY)
        "Chart must have at least x or y encoding" errors
  | None => errors
  end.

(** [getSupportedChartTypes()] *)
Definition getSupportedChartTypes : list string :=
  ["bar"; "line"; "scatter"; "area"; "histogram"; "boxplot"; "heatmap"; "pie"].

End ChartRenderer.

(* ===================================================================== *)
(** ** ChartBuilder (chart-builder.js): the guard in front of the builder *)
(* ===================================================================== *)

Module ChartBuilder.

Record t : Type := {
  currentData : option Dataset;       (* null until a data set is loaded *)
  currentMappings : Mappings.t;
  currentChartType : string;
  chartConfig : Config.t
}.

(** What [updateChart] does, up to the external renderer. *)
Inductive Outcome : Type :=
| ShowPlaceholder
| Render (spec : Spec.t)
| ErrorStatus (e : JSError).

(** [updateChart()] *)
Definition updateChart (cb : t) : Outcome :=
  match currentData cb with
  | None => ShowPlaceholder
  | Some data =>
      if negb (isSet (Mappings.x (currentMappings cb)))
         || negb (isSet (Mappings.y (currentMappings cb)))
      then ShowPlaceholder
      else
        match SpecBuilder.buildSpec data (currentChartType cb)
                                    (currentMappings cb) (chartConfig cb) with
        | Ok spec => Render spec
        | Throw e => ErrorStatus e
        end
  end.

(** The state after the constructor. *)
Definition initial : t :=
  {| currentData := None;
     currentMappings := Mappings.empty;
     currentChartType := "bar";
     chartConfig := {| Config.title := Some "";
                       Config.width := Some (num 600);
                       Config.height := Some (num 400) |} |}.

(** [this.currentMappings[encoding] = slot], for the four keys of the
    mappings object.  Another name would add a key to the object; the
    drop handler lets none through, and the record has no place for it. *)
Definition setSlot (encoding : string) (slot : option Mapping.t)
    (mappings : Mappings.t) : Mappings.t :=
  if String.eqb encoding "x" then
    {| Mappings.x := slot; Mappings.y := Mappings.y mappings;
       Mappings.color := Mappings.color mappings;
       Mappings.size := Mappings.size mappings |}
  else if String.eqb encoding "y" then
    {| Mappings.x := Mappings.x mappings; Mappings.y := slot;
       Mappings.color := Mappings.color mappings;
       Mappings.size := Mappings.size mappings |}
  else if String.eqb encoding "color" then
    {| Mappings.x := Mappings.x mappings; Mappings.y := Mappings.y mappings;
       Mappings.color := slot;
       Mappings.size := Mappings.size mappings |}
  else if String.eqb encoding "size" then
    {| Mappings.x := Mappings.x mappings; Mappings.y := Mappings.y mappings;
       Mappings.color := Mappings.color mappings;
       Mappings.size := slot |}
  else mappings.

(** [this.currentMappings[encoding]] *)
Definition getSlot (encoding : string) (mappings : Mappings.t) : option Mapping.t :=
  if String.eqb encoding "x" then Mappings.x mappings
  else if String.eqb encoding "y" then Mappings.y mappings
  else if String.eqb encoding "color" then Mappings.color mappings
  else if String.eqb encoding "size" then Mappings.size mappings
  else None.

Definition withMappings (cb : t) (mappings : Mappings.t) : t :=
  {| currentData := currentData cb;
     currentMappings := mappings;
     currentChartType := currentChartType cb;
     chartConfig := chartConfig cb |}.

(** [updateMapping(encoding, column, type)]: the new state; the zone it
    repaints is outside the model, and the chart it redraws is
    [updateChart] of the new state. *)
Definition updateMapping (encoding column : string) (type : ColumnType) (cb : t) : t :=
  withMappings cb
    (setSlot encoding (Some {| Mapping.column := column; Mapping.type := type |})
             (currentMappings cb)).

(** [removeMapping(encoding)] *)
Definition removeMapping (encoding : string) (cb : t) : t :=
  withMappings cb (setSlot encoding None (currentMappings cb)).

(** [clearMappings()]: [removeMapping] for every key of the mappings
    object. *)
Definition clearMappings (cb : t) : t :=
  fold_left (fun cb encoding => removeMapping encoding cb)
            ["x"; "y"; "color"; "size"] cb.

(** [loadData(data, sourceName)] *)
Definition loadData (data : Dataset) (cb : t) : t :=
  clearMappings {| currentData := Some data;
                   currentMappings := currentMappings cb;
                   currentChartType := currentChartType cb;
                   chartConfig := chartConfig cb |}.

(** [clearAll()], once confirmed. *)
Definition clearAll (cb : t) : t :=
  clearMappings {| currentData := None;
                   currentMappings := currentMappings cb;
                   currentChartType := currentChartType cb;
                   chartConfig := chartConfig cb |}.

(** The click on a chart type button. *)
Definition setChartType (chartType : string) (cb : t) : t :=
  {| currentData := currentData cb;
     currentMappings := currentMappings cb;
     currentChartType := chartType;
     chartConfig := chartConfig cb |}.

(** [DragDropManager.handleDrop(e)] as it acts on the builder.
    [validTarget] is [isValidDropTarget(e.currentTarget)]; [payload] is the
    dragged [{column, type}] read from the event, [None] when the text does
    not parse (the exception is caught and nothing changes). *)
Definition handleDrop (validTarget : bool) (encoding : string)
    (payload : option Mapping.t) (cb : t) : t :=
  if negb validTarget then cb
  else
    match payload with
    | None => cb
    | Some dragData =>
        if negb (DragDropManager.validateMapping encoding dragData) then cb
        else updateMapping encoding (Mapping.column dragData)
                           (Mapping.type dragData) cb
    end.

(** What the user can do to the builder. *)
Inductive Event : Type :=
| Drop (validTarget : bool) (encoding : string) (payload : option Mapping.t)
| RemoveClick (encoding : string)
| Load (data : Dataset)
| ClearAll
| ChartTypeClick (chartType : string).

Definition step (cb : t) (e : Event) : t :=
  match e with
  | Drop validTarget encoding payload => handleDrop validTarget encoding payload cb
  | RemoveClick encoding => removeMapping encoding cb
  | Load data => loadData data cb
  | ClearAll => clearAll cb
  | ChartTypeClick chartType => setChartType chartType cb
  end.

Definition run (events : list Event) : t := fold_left step events initial.

(** The four keys of the mappings object. *)
Definition isKey (encoding : string) : bool :=
  String.eqb encoding "x" || String.eqb encoding "y"
  || String.eqb encoding "color" || String.eqb encoding "size".

(** Every mapped slot holds a mapping the validator accepts there. *)
Definition validated (mappings : Mappings.t) : Prop :=
  forall encoding dragData,
    getSlot encoding mappings = Some dragData ->
    DragDropManager.validateMapping encoding dragData = true.

End ChartBuilder.

(* ===================================================================== *)
(** ** The specification's wording, for comparison with the code *)
(* ===================================================================== *)

Module Wording.
Import JSString JSNumeric DataManager.

(** [Number.MAX_SAFE_INTEGER], that is 2^53 - 1. *)
Definition maxSafeInteger : N := 9007199254740991.

(** The number is an integer of magnitude up to 2^53 - 1, as
    [Number.isSafeInteger] tests: binary64 holds such a value exactly, so
    that the decimal value kept here is the number the program has. *)
Definition isSafeInteger (n : JSNumber) : bool :=
  match n with
  | Finite _ m e =>
      if (0 <=? e)%Z then (m * 10 ^ Z.to_N e <=? maxSafeInteger)%N
      else (m mod 10 ^ Z.to_N (- e) =? 0)%N
           && (m / 10 ^ Z.to_N (- e) <=? maxSafeInteger)%N
  | NaN | Infinity _ => false
  end.



(** The text is, in full, the decimal representation of a finite number:
    an optional sign, digits with an optional fraction, an optional
    exponent, and nothing else. *)
Definition parsesFullyAsFiniteNumber (s : string) : bool :=
  match scanDecimal (chars s) with
  | Some (Finite _ _ _, []) => true
  | _ => false
  end.

(** The cell text after trimming and quote removal. *)
Definition unquoted (raw : string) : string :=
  str (stripQuotes (trimChars (chars raw))).

(** The header names of a file and the lines after the header. *)
Definition headersOf (content : string) (delimiter : ascii) : list string :=
  match split newline (trim content) with
  | header :: _ => parseCSVLine header delimiter
  | [] => []
  end.
Definition dataLinesOf (content : string) : list string :=
  tail (split newline (trim content)).

(** A line is kept when it has as many values as there are headers. *)
Definition fits (headers : list string) (delimiter : ascii) (line : string) : bool :=
  (List.length (parseCSVLine line delimiter) =? List.length headers)%nat.

(** The invariant of a parsed file: the rows are those of the fitting
    lines, in order, one row per line, and the keys of each row are the
    header names. *)
Definition rowsFollowHeader (content : string) (delimiter : ascii)
    (data : Dataset) : Prop :=
  let headers := headersOf content delimiter in
  data = map (fun line => buildRow headers (parseCSVLine line delimiter))
             (List.filter (fits headers delimiter) (dataLinesOf content))
  /\ Forall (fun row : Row => dom row = list_to_set headers) data.


(** The quoting convention of a CSV writer: a field is wrapped in double
    quotes and every double quote inside it is doubled; the fields of a
    line are joined by the delimiter. *)
Definition escapeQuotes (field : list ascii) : list ascii :=
  flat_map (fun c => if Ascii.eqb c quote then [quote; quote] else [c]) field.
Definition quoteField (field : list ascii) : list ascii :=
  quote :: escapeQuotes field ++ [quote].
Fixpoint joinFields (delimiter : ascii) (fields : list (list ascii)) : list ascii :=
  match fields with
  | [] => []
  | [f] => f
  | f :: fields' => f ++ delimiter :: joinFields delimiter fields'
  end.

(** The characters a decimal literal is made of. *)
Definition isLiteralChar (c : ascii) : bool :=
  isDigit c || Ascii.eqb c "+" || Ascii.eqb c "-" || Ascii.eqb c "."
  || Ascii.eqb c "e" || Ascii.eqb c "E".

(** The two shapes of an unsigned decimal after its integer digits:
    without and with a fraction. *)
Definition integerOnly (neg : bool) (ip r1 : list ascii)
  : option (JSNumber * list ascii) :=
  match ip with
  | [] => None
  | _ => let '(e, r4) := scanExponent r1 in
         Some (Finite neg (digitsVal 0 ip) e, r4)
  end.

Definition withFraction (neg : bool) (ip r2 : list ascii)
  : option (JSNumber * list ascii) :=
  let '(fp, r3) := span isDigit r2 in
  match ip, fp with
  | [], [] => None
  | _, _ =>
      let '(e, r4) := scanExponent r3 in
      Some (Finite neg (digitsVal (digitsVal 0 ip) fp)
                   (e - Z.of_nat (List.length fp)), r4)
  end.

(** The kinds of cell a CSV or TSV file can give: null, number, string
    and [Date]. *)
Definition isCSVCell (c : Cell) : bool :=
  match c with
  | VNull | VNum _ | VStr _ | VDate _ => true
  | _ => false
  end.

(** The entry of a channel says what the mapping says. *)
Definition carries (slot : option Mapping.t) (entry : option Channel.t) : Prop :=
  match slot, entry with
  | None, None => True
  | Some m, Some ch =>
      Channel.field ch = Mapping.column m
      /\ Channel.type ch = Mapping.type m
      /\ Channel.title ch = SpecBuilder.formatTitle (Mapping.column m)
  | _, _ => False
  end.

(** The metadata entry of an encoding entry. *)
Definition metaOf (ch : Channel.t) : EncodingMeta.t :=
  {| EncodingMeta.field := Channel.field ch;
     EncodingMeta.type := Channel.type ch;
     EncodingMeta.title := Channel.title ch |}.

(** The entries of an encoding, by channel name, in the order of the keys
    of the mappings object. *)
Definition channels (encoding : Encoding.t) : list (string * Channel.t) :=
  omap (fun '(name, entry) => (fun ch => (name, ch)) <$> entry)
       [ ("x", Encoding.x encoding); ("y", Encoding.y encoding);
         ("color", Encoding.color encoding); ("size", Encoding.size encoding) ].

(** What [validateChartConfig] asks of the mappings, by chart type. *)
Definition meetsRequirements (chartType : string) (mappings : Mappings.t) : bool :=
  let mx := Mappings.x mappings in
  let my := Mappings.y mappings in
  if String.eqb chartType "scatter" then isSet mx && isSet my
  else if String.eqb chartType "line" then
    isSet my
    && match mx with
       | Some m => ColumnType_eqb (Mapping.type m) temporal
                   || ColumnType_eqb (Mapping.type m) quantitative
       | None => false
       end
  else if String.eqb chartType "histogram" then
    match mx with
    | Some m => ColumnType_eqb (Mapping.type m) quantitative
    | None => false
    end
  else isSet mx || isSet my.

(** The error [parseAutoDetect] ends with. *)
Definition couldNotDetect : JSError :=
  Error ("Could not detect file format. "
         +:+ "Please ensure it is CSV, TSV, or JSON.").

End Wording.

(* ===================================================================== *)
(** ** Concrete inputs used below *)
(* ===================================================================== *)

Module Samples.
Import DataManager.

Definition lf : string := String newline "".

(** The text of a file with the given lines, each ended by a line feed. *)
Definition fileOf (lines : list string) : string :=
  String.concat lf (lines ++ [""]).

(** [name,value / A,30 / B,80], each line ended by a line feed. *)
Definition scenarioCSV : string := fileOf ["name,value"; "A,30"; "B,80"].

Definition rowA : Row := {[ "name" := VStr "A"; "value" := VNum (num 30) ]}.
Definition rowB : Row := {[ "name" := VStr "B"; "value" := VNum (num 80) ]}.

(** A file whose first column is named [__proto__]. *)
Definition protoCSV : string := fileOf ["__proto__,a"; "1,2"].

(** A file whose third and fourth lines are ragged. *)
Definition raggedCSV : string :=
  fileOf ["a,b"; "1,2"; "3"; "4,5,6"; "7,8"].

(** A file with a column of dates. *)
Definition datedCSV : string :=
  fileOf ["date,price"; "2023-01-15,10.5"; "2023-02-20,11"; "03/04/2023,12"].

(** Rows with one column each, holding the given cells. *)
Definition columnOf (column : string) (cells : list Cell) : Dataset :=
  map (fun c => <[column := c]> ∅) cells.


(** Nine answers over three distinct short values. *)
Definition grades : Dataset :=
  columnOf "grade" (map VStr ["A"; "B"; "C"; "A"; "A"; "B"; "C"; "A"; "B"]).



(** A column with a number and a string. *)
Definition mixed : Dataset :=
  columnOf "v" [VNum (num 1); VStr "n/a"].

Definition quantitativeXY : Mappings.t :=
  {| Mappings.x := Some {| Mapping.column := "height"; Mapping.type := quantitative |};
     Mappings.y := Some {| Mapping.column := "weight"; Mapping.type := quantitative |};
     Mappings.color := None;
     Mappings.size := None |}.

End Samples.

(* ===================================================================== *)
(** ** Auxiliary facts about arrays *)
(* ===================================================================== *)

Section ArrayFacts.
Context {A : Type}.
Variable p : A -> bool.

Lemma filter_length_le (l : list A) :
  (List.length (List.filter p l) <= List.length l)%nat.
Proof.
  induction l as [|a l IH]; simpl; [lia|].
  destruct (p a); simpl; lia.
Qed.

(** [arr.filter(p).length === arr.length] says that [p] holds of every
    element. *)
Lemma filter_length_all (l : list A) :
  (List.length (List.filter p l) =? List.length l)%nat = forallb p l.
Proof.
  induction l as [|a l IH]; simpl; [reflexivity|].
  destruct (p a); simpl.
  - exact IH.
  - pose proof (filter_length_le l).
    apply Nat.eqb_neq. lia.
Qed.

Lemma filter_all_id (l : list A) :
  forallb p l = true -> List.filter p l = l.
Proof.
  induction l as [|a l IH]; simpl; [reflexivity|].
  destruct (p a); simpl; [|discriminate].
  intros H. f_equal. auto.
Qed.

End ArrayFacts.

Section KindFacts.
Import DataManager.




Lemma columnValues_nil_data (column : string) : columnValues [] column = [].
Proof. reflexivity. Qed.

Lemma length_zero_nil {A} (l : list A) :
  (List.length l =? 0)%nat = false <-> l <> [].
Proof. destruct l; simpl; split; congruence. Qed.

(** The shape of [inferColumnType] once the column has a non-null
    value: the three kind tests in order. *)
Lemma inferColumnType_unfold (data : Dataset) (column : string) :
  columnValues data column <> [] ->
  inferColumnType data column =
    let values := columnValues data column in
    if forallb isNumber values then quantitative
    else if forallb isDateObject values then temporal
    else if forallb isString values then
      let uniqueValues := distinct (omap asString (List.filter isString values)) in
      if fewDistinct uniqueValues values then
        if matchesOrdinalPattern (map JSString.toLowerCase uniqueValues) then ordinal
        else if forallb (fun v => (JSString.length v <=? 3)%nat) uniqueValues
             then nominal else ordinal
      else nominal
    else nominal.
Proof.
  intros Hne. unfold inferColumnType.
  assert (Hd : data <> []).
  { intros ->. apply Hne. reflexivity. }
  apply length_zero_nil in Hd. rewrite Hd.
  apply length_zero_nil in Hne. rewrite Hne.
  rewrite !filter_length_all. reflexivity.
Qed.

End KindFacts.

Section DistinctFacts.
Import JSString DataManager.

Lemma includes_In (arr : list string) (s : string) :
  includes arr s = true <-> In s arr.
Proof.
  unfold includes. rewrite existsb_exists. split.
  - intros (t & Ht & Heq). apply String.eqb_eq in Heq. now subst.
  - intros H. exists s. split; [exact H | apply String.eqb_refl].
Qed.

Lemma includes_false (arr : list string) (s : string) :
  includes arr s = false <-> ~ In s arr.
Proof.
  rewrite <- includes_In. destruct (includes arr s); split; congruence.
Qed.

Lemma distinctFrom_In (values seen : list string) (v : string) :
  In v (distinctFrom seen values) <-> In v values /\ ~ In v seen.
Proof.
  revert seen. induction values as [|w values IH]; intros seen; simpl.
  - tauto.
  - destruct (includes seen w) eqn:Hw.
    + apply includes_In in Hw. rewrite IH. split.
      * tauto.
      * intros [[-> | H] Hn]; [contradiction | tauto].
    + apply includes_false in Hw. simpl. rewrite IH. simpl. split.
      * intros [-> | [H Hn]]; [tauto|]. split; [tauto|].
        intros Hs. apply Hn. now right.
      * intros [[-> | H] Hn]; [now left|].
        destruct (String.string_dec w v) as [-> | Hne]; [now left|].
        right. split; [exact H|]. intros [Heq | Hs]; [congruence | contradiction].
Qed.

(** A set built from an array has the elements of the array. *)
Lemma distinct_In (values : list string) (v : string) :
  In v (distinct values) <-> In v values.
Proof. unfold distinct. rewrite distinctFrom_In. simpl. tauto. Qed.

Lemma omap_asString_In (values : list Cell) (v : string) :
  In v (omap asString values) <-> In (VStr v) values.
Proof.
  induction values as [|c values IH]; simpl; [tauto|].
  destruct c; simpl; rewrite IH; split;
    try (intros [H | H]; [congruence + (left; congruence) | tauto]); try tauto.
  all: intros [H | H]; try tauto; try discriminate.
Qed.

Lemma length_chars (s : string) :
  JSString.length s = List.length (chars s).
Proof.
  unfold JSString.length, chars.
  induction s as [|c s IH]; simpl; [reflexivity | now f_equal].
Qed.

Lemma chars_str (l : list ascii) : chars (str l) = l.
Proof. apply list_ascii_of_string_of_list_ascii. Qed.

Lemma str_chars (s : string) : str (chars s) = s.
Proof. apply string_of_list_ascii_of_string. Qed.


End DistinctFacts.

(* ===================================================================== *)
(** ** Mapping validation *)
(* ===================================================================== *)

Section ValidatorFacts.
Import DragDropManager.

(** The table the validator implements, channel by channel. *)
Lemma validateMapping_table (column : string) (type : ColumnType) :
  validateMapping "x" {| Mapping.column := column; Mapping.type := type |} = true
  /\ validateMapping "y" {| Mapping.column := column; Mapping.type := type |}
     = ColumnType_eqb type quantitative
  /\ validateMapping "color" {| Mapping.column := column; Mapping.type := type |}
     = negb (ColumnType_eqb type temporal)
  /\ validateMapping "size" {| Mapping.column := column; Mapping.type := type |}
     = ColumnType_eqb type quantitative.
Proof. destruct type; repeat split; reflexivity. Qed.

(** The branch that would accept a nominal or ordinal column on [y] is
    never the one that decides: whenever it is reached the type is in the
    table of [y], which holds [quantitative] only. *)
Lemma validateMapping_y_branch_dead (dragData : Mapping.t) :
  includesType [quantitative] (Mapping.type dragData) = true ->
  includesType [nominal; ordinal] (Mapping.type dragData) = false.
Proof. destruct dragData as [c []]; simpl; intros; congruence. Qed.

(** The recommendations offer [y] as a secondary channel for a nominal
    or ordinal column, which the validator then refuses. *)
Lemma recommended_y_is_refused (column : string) (type : ColumnType) :
  type = nominal \/ type = ordinal ->
  In "y" (snd (getEncodingRecommendations type))
  /\ validateMapping "y" {| Mapping.column := column; Mapping.type := type |} = false.
Proof. intros [-> | ->]; simpl; auto. Qed.

(** C1. On the channel [y] the validator rejects a nominal column and an
    ordinal column, and accepts a quantitative one; on [size] it rejects a
    nominal column.  The permissive rule for [y] never applies. *)
Theorem validateMapping_y_rejects_nominal (column : string) :
  DragDropManager.validateMapping "y"
    {| Mapping.column := column; Mapping.type := nominal |} = false
  /\ DragDropManager.validateMapping "y"
       {| Mapping.column := column; Mapping.type := ordinal |} = false
  /\ DragDropManager.validateMapping "y"
       {| Mapping.column := column; Mapping.type := quantitative |} = true
  /\ DragDropManager.validateMapping "size"
       {| Mapping.column := column; Mapping.type := nominal |} = false.
Proof. repeat split; reflexivity. Qed.

End ValidatorFacts.

(* ===================================================================== *)
(** ** Column type inference *)
(* ===================================================================== *)

Section InferenceFacts.
Import JSString DataManager Wording.

(** C10. A column whose non-null values are neither all numbers, nor all
    [Date] objects, nor all strings is nominal. *)
Theorem inferColumnType_mixed_kinds (data : Dataset) (column : string) :
  forallb isNumber (columnValues data column) = false ->
  forallb isDateObject (columnValues data column) = false ->
  forallb isString (columnValues data column) = false ->
  DataManager.inferColumnType data column = nominal.
Proof.
  intros Hn Hd Hs.
  destruct (columnValues data column) as [|c l] eqn:Hv; [discriminate|].
  rewrite inferColumnType_unfold by (rewrite Hv; discriminate).
  cbv zeta. rewrite Hv, Hn, Hd, Hs. reflexivity.
Qed.

Lemma inferColumnType_mixed_kinds_witness :
  DataManager.inferColumnType Samples.mixed "v" = nominal.
Proof.
  apply inferColumnType_mixed_kinds; reflexivity.
Defined.



End InferenceFacts.

Section VocabularyFacts.
Import JSString DataManager Wording.









(** Short distinct values and no vocabulary: nominal. *)
Example inferColumnType_grades :
  inferColumnType Samples.grades "grade" = nominal.
Proof. reflexivity. Qed.



End VocabularyFacts.

(* ===================================================================== *)
(** ** Cell value parsing *)
(* ===================================================================== *)

Section ParseValueFacts.
Import JSString JSNumeric DataManager Wording.

(** What [parseValue] returns for a non-empty cell, by the three tests on
    the unquoted text. *)
Lemma parseValue_cases (raw : string) :
  raw <> "" ->
  parseValue raw =
    let value := unquoted raw in
    if negb (isNaN value) && negb (String.eqb value "") then VNum (parseFloat value)
    else if isDate value then VDate value
    else VStr value.
Proof.
  intros Hne. unfold parseValue, unquoted.
  destruct (String.eqb raw "") eqn:He; [|reflexivity].
  apply String.eqb_eq in He. contradiction.
Qed.

(** C3, as the code has it.  For a non-empty cell whose unquoted text is
    empty or is rejected by numeric coercion ([isNaN]), and matches none of
    the three date patterns, [parseValue] returns the unquoted text as a
    string. *)
Theorem parseValue_string (raw : string) :
  raw <> "" ->
  unquoted raw = "" \/ isNaN (unquoted raw) = true ->
  isDate (unquoted raw) = false ->
  DataManager.parseValue raw = VStr (unquoted raw).
Proof.
  intros Hne Hnum Hdate.
  rewrite (parseValue_cases raw Hne). cbv zeta. rewrite Hdate.
  destruct Hnum as [He | Hn].
  - rewrite He. reflexivity.
  - rewrite Hn. reflexivity.
Qed.

Lemma parseValue_string_witness :
  DataManager.parseValue "'12px'" = VStr "12px".
Proof.
  apply (parseValue_string "'12px'"); [discriminate | right; reflexivity | reflexivity].
Defined.

(** Conversely, a non-empty unquoted text that numeric coercion accepts
    comes back as a number: what [parseFloat] reads from it. *)
Lemma parseValue_number (raw : string) :
  raw <> "" ->
  unquoted raw <> "" ->
  isNaN (unquoted raw) = false ->
  parseValue raw = VNum (parseFloat (unquoted raw)).
Proof.
  intros Hne Hu Hn.
  rewrite (parseValue_cases raw Hne). cbv zeta. rewrite Hn.
  destruct (String.eqb (unquoted raw) "") eqn:He; [|reflexivity].
  apply String.eqb_eq in He. contradiction.
Qed.

(** C3, counterexample.  The texts Infinity and 0x10 are non-empty, are not
    the full decimal representation of a finite number and match no date
    pattern; [parseValue] returns a number for each, not the string. *)
Lemma parseValue_Infinity_and_hex_are_numbers :
  "Infinity" <> ""
  /\ parsesFullyAsFiniteNumber (unquoted "Infinity") = false
  /\ isDate (unquoted "Infinity") = false
  /\ DataManager.parseValue "Infinity" = VNum (Infinity false)
  /\ DataManager.parseValue "Infinity" <> VStr (unquoted "Infinity")
  /\ "0x10" <> ""
  /\ parsesFullyAsFiniteNumber (unquoted "0x10") = false
  /\ isDate (unquoted "0x10") = false
  /\ DataManager.parseValue "0x10" = VNum (Finite false 0 0)
  /\ DataManager.parseValue "0x10" <> VStr (unquoted "0x10").
Proof. vm_compute. repeat split; congruence. Qed.

End ParseValueFacts.

(* ===================================================================== *)
(** ** Date-pattern cells in a CSV or TSV file *)
(* ===================================================================== *)

Section DateFacts.
Import JSString JSNumeric DataManager Wording.

(** What a decimal digit is not. *)
Lemma digit_char (c : ascii) :
  isDigit c = true ->
  isWhiteSpace c = false
  /\ Ascii.eqb quote c = false
  /\ Ascii.eqb apostrophe c = false
  /\ (forall l, scanSign (c :: l) = (false, c :: l))
  /\ (forall l, stripPrefix infinityChars (c :: l) = None)
  /\ Ascii.eqb c "." = false
  /\ Ascii.eqb c "x" || Ascii.eqb c "X" = false
  /\ Ascii.eqb c "o" || Ascii.eqb c "O" = false
  /\ Ascii.eqb c "b" || Ascii.eqb c "B" = false.
Proof.
  destruct c as [[] [] [] [] [] [] [] []]; intros H; vm_compute in H;
    try discriminate H; repeat split; reflexivity.
Qed.

Lemma span_digits (ds r : list ascii) :
  forallb isDigit ds = true ->
  match r with [] => true | c :: _ => negb (isDigit c) end = true ->
  span isDigit (ds ++ r) = (ds, r).
Proof.
  intros Hds Hr. induction ds as [|c ds IH]; simpl in *.
  - destruct r as [|c r]; [reflexivity|]. simpl.
    apply negb_true_iff in Hr. now rewrite Hr.
  - apply andb_prop in Hds. destruct Hds as [Hc Hds].
    rewrite Hc, (IH Hds). reflexivity.
Qed.

Lemma trimChars_id (c z : ascii) (m : list ascii) :
  isWhiteSpace c = false -> isWhiteSpace z = false ->
  trimChars (c :: m ++ [z]) = c :: m ++ [z].
Proof.
  intros Hc Hz. unfold trimChars, trimStartChars, trimEndChars.
  assert (Hd : dropWhile isWhiteSpace (c :: m ++ [z]) = c :: m ++ [z]).
  { simpl. now rewrite Hc. }
  rewrite Hd.
  assert (Hr : rev (c :: m ++ [z]) = z :: rev (c :: m)).
  { change (c :: m ++ [z]) with ((c :: m) ++ [z]). now rewrite rev_app_distr. }
  rewrite Hr.
  assert (Hd' : dropWhile isWhiteSpace (z :: rev (c :: m)) = z :: rev (c :: m)).
  { cbn [dropWhile]. now rewrite Hz. }
  rewrite Hd', <- Hr. apply rev_involutive.
Qed.

(** A run of at least one digit followed by a hyphen or a slash is not a
    numeric string. *)
Lemma digits_separator_not_numeric (c : ascii) (ds : list ascii) (sep z : ascii)
    (rest : list ascii) :
  isDigit c = true -> forallb isDigit ds = true ->
  sep = "-"%char \/ sep = "/"%char ->
  isDigit z = true ->
  match ds with [] => false | d :: _ => true end = true ->
  isNumericString (str ((c :: ds) ++ sep :: rest ++ [z])) = false.
Proof.
  intros Hc Hds Hsep Hz Hne.
  destruct (digit_char c Hc) as (Hws & _ & _ & Hsign & Hinf & _ & _).
  destruct (digit_char z Hz) as (Hwz & _).
  unfold isNumericString. rewrite chars_str.
  assert (Hl : (c :: ds) ++ sep :: rest ++ [z] = c :: (ds ++ sep :: rest) ++ [z]).
  { simpl. f_equal. now rewrite <- app_assoc. }
  rewrite Hl, (trimChars_id c z _ Hws Hwz), <- Hl.
  assert (Hscan : exists n, scanDecimal ((c :: ds) ++ sep :: rest ++ [z])
                   = Some (n, sep :: rest ++ [z])).
  { unfold scanDecimal. simpl app at 1. rewrite Hsign.
    unfold scanUnsignedDecimal. rewrite Hinf.
    change (c :: ds ++ sep :: rest ++ [z]) with ((c :: ds) ++ sep :: rest ++ [z]).
    rewrite span_digits.
    - destruct Hsep as [-> | ->]; eexists; reflexivity.
    - simpl. now rewrite Hc, Hds.
    - destruct Hsep as [-> | ->]; reflexivity. }
  destruct Hscan as (n & ->).
  simpl app.
  destruct ds as [|d ds]; [discriminate|].
  simpl in Hds. apply andb_prop in Hds. destruct Hds as [Hd _].
  destruct (digit_char d Hd) as (_ & _ & _ & _ & _ & _ & Hx & Ho & Hb).
  unfold isNonDecimalInteger. simpl app.
  destruct c as [[] [] [] [] [] [] [] []]; try reflexivity.
  all: destruct (ds ++ sep :: rest ++ [z]); try reflexivity; now rewrite Hx, Ho, Hb.
Qed.

Lemma matchesShape_cons (p : option ascii) (shape : list (option ascii))
    (l : list ascii) :
  matchesShape (p :: shape) l = true ->
  exists c l', l = c :: l'
    /\ match p with None => isDigit c = true | Some d => c = d end
    /\ matchesShape shape l' = true.
Proof.
  unfold matchesShape. destruct l as [|c l']; simpl; [discriminate|].
  intros H. apply andb_prop in H. destruct H as [Hlen H].
  apply andb_prop in H. destruct H as [Hc H].
  exists c, l'. split; [reflexivity|]. split.
  - destruct p as [d|]; [|exact Hc]. apply Ascii.eqb_eq in Hc. congruence.
  - now rewrite Hlen, H.
Qed.

Lemma matchesShape_nil (l : list ascii) : matchesShape [] l = true -> l = [].
Proof. destruct l; [reflexivity | discriminate]. Qed.

Ltac shape H :=
  repeat (let c := fresh "c" in let l := fresh "l" in
          let Hc := fresh "Hc" in let E := fresh "E" in
          apply matchesShape_cons in H;
          destruct H as (c & l & E & Hc & H); simpl in Hc; subst);
  apply matchesShape_nil in H; subst.

(** A text that matches a date pattern starts with at least two digits
    followed by a hyphen or a slash, and ends with a digit. *)
Lemma isDate_shape (value : string) :
  isDate value = true ->
  exists c c' ds sep rest z,
    chars value = (c :: c' :: ds) ++ sep :: rest ++ [z]
    /\ isDigit c = true /\ forallb isDigit (c' :: ds) = true
    /\ (sep = "-"%char \/ sep = "/"%char) /\ isDigit z = true.
Proof.
  unfold isDate, datePatterns. simpl existsb.
  intros H. apply orb_prop in H. destruct H as [H | H];
    [|apply orb_prop in H; destruct H as [H | H];
      [|apply orb_prop in H; destruct H as [H | H]; [|discriminate]]];
    unfold d, lit in H; shape H.
  - exists c, c0, [c1; c2], "-"%char, [c3; c4; "-"%char; c5], c6.
    simpl. rewrite Hc0, Hc1, Hc2. repeat split; auto.
  - exists c, c0, [], "/"%char, [c1; c2; "/"%char; c3; c4; c5], c6.
    simpl. rewrite Hc0. repeat split; auto.
  - exists c, c0, [], "-"%char, [c1; c2; "-"%char; c3; c4; c5], c6.
    simpl. rewrite Hc0. repeat split; auto.
Qed.




End DateFacts.

(* ===================================================================== *)
(** ** CSV and TSV files *)
(* ===================================================================== *)

Section ParseCSVFacts.
Import JSString DataManager Wording.

(** Under any name but [__proto__] an assignment stores the value and
    leaves the prototype alone. *)
Lemma assign_plain (header : string) (value : Cell) (row : Row) (proto : Prototype) :
  header <> protoName ->
  assign header value row proto = (<[header := value]> row, proto).
Proof.
  intros Hne. unfold assign.
  destruct (String.eqb header protoName) eqn:E; [|reflexivity].
  apply String.eqb_eq in E. contradiction.
Qed.

(** When no header is [__proto__], filling a row adds exactly the header
    names to its keys, whatever the values are. *)
Lemma fillRow_dom (values headers : list string) (index : nat) (row : Row)
    (proto : Prototype) :
  ~ In protoName headers ->
  dom (fst (fillRow values index headers row proto)) = dom row ∪ list_to_set headers.
Proof.
  revert index row. induction headers as [|header headers IH]; intros index row Hn; simpl.
  - now rewrite (right_id_L ∅ (∪)).
  - rewrite assign_plain by (intros ->; apply Hn; now left).
    rewrite IH by (intros H; apply Hn; now right).
    rewrite dom_insert_L.
    rewrite (comm_L (∪) {[header]} (dom row)).
    now rewrite (assoc_L (∪)).
Qed.

Lemma buildRow_dom (headers values : list string) :
  ~ In protoName headers ->
  dom (buildRow headers values) = list_to_set headers.
Proof.
  intros Hn. unfold buildRow. rewrite fillRow_dom by exact Hn.
  rewrite dom_empty_L. apply (left_id_L ∅ (∪)).
Qed.

(** The loop over the lines is a filter followed by a map. *)
Lemma parseRows_filter_map (headers : list string) (delimiter : ascii)
    (lines : list string) :
  parseRows headers delimiter lines =
    map (fun line => buildRow headers (parseCSVLine line delimiter))
        (List.filter (fits headers delimiter) lines).
Proof.
  induction lines as [|line lines IH]; simpl; [reflexivity|].
  unfold fits at 1.
  destruct (List.length (parseCSVLine line delimiter) =? List.length headers)%nat;
    simpl; [now f_equal | exact IH].
Qed.

Lemma parseRows_dom (headers : list string) (delimiter : ascii)
    (lines : list string) :
  ~ In protoName headers ->
  Forall (fun row : Row => dom row = list_to_set headers)
         (parseRows headers delimiter lines).
Proof.
  intros Hn. induction lines as [|line lines IH]; simpl; [constructor|].
  destruct (negb _); [exact IH|].
  constructor; [apply buildRow_dom, Hn | exact IH].
Qed.

(** A ragged line leaves no row behind. *)
Lemma parseRows_drops_ragged (headers : list string) (delimiter : ascii)
    (line : string) (lines : list string) :
  fits headers delimiter line = false ->
  parseRows headers delimiter (line :: lines) = parseRows headers delimiter lines.
Proof. unfold fits. simpl. now intros ->. Qed.

Lemma parseCSV_rowsFollowHeader (content : string) (delimiter : ascii)
    (data : Dataset) :
  ~ In protoName (headersOf content delimiter) ->
  parseCSV content delimiter = Ok data -> rowsFollowHeader content delimiter data.
Proof.
  unfold parseCSV, rowsFollowHeader, headersOf, dataLinesOf.
  destruct (split newline (trim content)) as [|header rest]; [discriminate|].
  destruct (_ <? 2)%nat; [discriminate|].
  intros Hn [= <-]. cbv zeta. simpl tail. split.
  - apply parseRows_filter_map.
  - apply parseRows_dom, Hn.
Qed.

(** C9. When no header is named [__proto__], every data set that
    [parseCSV] (with any delimiter) or [parseTSV] returns consists of one
    row per line that has as many values as the header, in order; lines
    with another count leave no row; and the keys of every row are the
    header names. *)
Theorem parseCSV_rows_share_header_keys (content : string) :
  (forall (delimiter : ascii) (data : Dataset),
      ~ In protoName (headersOf content delimiter) ->
      DataManager.parseCSV content delimiter = Ok data ->
      rowsFollowHeader content delimiter data)
  /\ (forall data : Dataset,
      ~ In protoName (headersOf content tab) ->
      DataManager.parseTSV content = Ok data ->
      rowsFollowHeader content tab data).
Proof.
  split.
  - intros delimiter data. apply parseCSV_rowsFollowHeader.
  - intros data. unfold parseTSV. apply parseCSV_rowsFollowHeader.
Qed.

Lemma parseCSV_rows_share_header_keys_witness :
  exists data,
    DataManager.parseCSV Samples.raggedCSV comma = Ok data
    /\ List.length data = 2%nat
    /\ rowsFollowHeader Samples.raggedCSV comma data.
Proof.
  eexists. split; [vm_compute; reflexivity|].
  split; [reflexivity|].
  apply (proj1 (parseCSV_rows_share_header_keys Samples.raggedCSV)).
  - vm_compute. intuition discriminate.
  - vm_compute. reflexivity.
Defined.

(** A header named [__proto__] is no key of the rows: its values go to the
    setter inherited from [Object.prototype], and the one row of the file
    [__proto__,a / 1,2] has the one key [a]. *)
Lemma parseCSV_proto_header_is_no_key :
  DataManager.parseCSV Samples.protoCSV comma = Ok [ {[ "a" := VNum (num 2) ]} ]
  /\ headersOf Samples.protoCSV comma = ["__proto__"; "a"]
  /\ ~ rowsFollowHeader Samples.protoCSV comma [ {[ "a" := VNum (num 2) ]} ].
Proof.
  split; [vm_compute; reflexivity|]. split; [vm_compute; reflexivity|].
  intros [_ Hdom]. apply Forall_inv in Hdom.
  assert (Hin : "__proto__" ∈ dom ({[ "a" := VNum (num 2) ]} : Row)).
  { rewrite Hdom. vm_compute headersOf. set_solver. }
  rewrite dom_singleton_L in Hin. apply elem_of_singleton in Hin. discriminate Hin.
Qed.

(** Date cells of a file are [Date] objects and make a temporal column. *)
Example parseCSV_dated :
  exists data,
    parseCSV Samples.datedCSV comma = Ok data
    /\ map (fun row => get row "date") data
       = [VDate "2023-01-15"; VDate "2023-02-20"; VDate "03/04/2023"]
    /\ inferColumnType data "date" = temporal
    /\ inferColumnType data "price" = quantitative.
Proof. eexists. split; [vm_compute; reflexivity|]. vm_compute. repeat split; reflexivity. Qed.

(** C6. The file [name,value / A,30 / B,80] parses to the two rows
    [{name: A, value: 30}] and [{name: B, value: 80}] with numeric value
    cells; on them the column [value] is quantitative and the column
    [name] is nominal. *)
Theorem parseCSV_scenario :
  DataManager.parseCSV Samples.scenarioCSV comma = Ok [Samples.rowA; Samples.rowB]
  /\ DataManager.inferColumnType [Samples.rowA; Samples.rowB] "value" = quantitative
  /\ DataManager.inferColumnType [Samples.rowA; Samples.rowB] "name" = nominal.
Proof. vm_compute. repeat split; reflexivity. Qed.

End ParseCSVFacts.

(* ===================================================================== *)
(** ** The specification builder *)
(* ===================================================================== *)

Section SpecBuilderFacts.
Import SpecBuilder.

(** Every property read in an entry of the encoding stands behind the
    truthiness test of its slot. *)
Lemma positional_returns (axis : string) (slot : option Mapping.t) :
  positional axis slot =
    Ok (match slot with
        | Some m => Some {| Channel.field := Mapping.column m;
                            Channel.type := Mapping.type m;
                            Channel.title := formatTitle (Mapping.column m);
                            Channel.axis := Some (buildAxisConfig axis (Mapping.type m));
                            Channel.scale := None;
                            Channel.legendTitle := None |}
        | None => None
        end).
Proof. destruct slot; reflexivity. Qed.

Lemma scaled_returns (buildScale : ColumnType -> Scale.t) (slot : option Mapping.t) :
  exists entry, scaled buildScale slot = Ok entry /\ isSet entry = isSet slot.
Proof. destruct slot; eexists; split; reflexivity. Qed.

Lemma buildEncoding_returns (mappings : Mappings.t) :
  exists encoding,
    buildEncoding mappings = Ok encoding
    /\ Channel.field <$> Encoding.x encoding = Mapping.column <$> Mappings.x mappings
    /\ Channel.field <$> Encoding.y encoding = Mapping.column <$> Mappings.y mappings.
Proof.
  unfold buildEncoding. rewrite !positional_returns.
  destruct (scaled_returns buildColorScale (Mappings.color mappings)) as (ec & -> & _).
  destruct (scaled_returns buildSizeScale (Mappings.size mappings)) as (es & -> & _).
  eexists. split; [reflexivity|]. simpl.
  split; [destruct (Mappings.x mappings) | destruct (Mappings.y mappings)]; reflexivity.
Qed.

Lemma buildSpec_returns (data : Dataset) (chartType : string)
    (mappings : Mappings.t) (config : Config.t) :
  exists spec,
    buildSpec data chartType mappings config = Ok spec
    /\ Spec.values spec = data
    /\ Spec.mark spec = buildMark chartType mappings
    /\ Channel.field <$> Encoding.x (Spec.encoding spec)
       = Mapping.column <$> Mappings.x mappings
    /\ Channel.field <$> Encoding.y (Spec.encoding spec)
       = Mapping.column <$> Mappings.y mappings.
Proof.
  unfold buildSpec.
  destruct (buildEncoding_returns mappings) as (encoding & -> & Hx & Hy).
  eexists. split; [reflexivity|]. simpl. auto.
Qed.

(** By contrast [validateChartConfig] does read through an unset slot:
    for a line chart without an x mapping it throws instead of returning
    its list of messages. *)
Lemma validateChartConfig_line_without_x_throws (data : Dataset) (config : Config.t) :
  exists e, validateChartConfig data "line" Mappings.empty config = Throw e.
Proof. eexists. reflexivity. Qed.

(** On records that have a column the builder for records as passed is
    the builder for mapping records. *)
Lemma buildSpecOf_ofMappings (data : Dataset) (chartType : string)
    (mappings : Mappings.t) (config : Config.t) :
  buildSpecOf data chartType (Passed.ofMappings mappings) config
  = buildSpec data chartType mappings config.
Proof.
  unfold buildSpecOf, buildSpec, buildEncodingOf, buildEncoding, buildMarkOf, buildMark.
  destruct mappings as [[mx|] [my|] [mc|] [ms|]]; reflexivity.
Qed.

(** A populated channel whose record has a column gives an entry. *)
Lemma positionalOf_returns (axis : string) (slot : option Passed.t) :
  Passed.hasColumn slot = true -> returns (positionalOf axis slot).
Proof.
  destruct slot as [[[column|] type]|]; simpl; try discriminate; intros _; eexists;
    reflexivity.
Qed.

Lemma scaledOf_returns (buildScale : ColumnType -> Scale.t) (slot : option Passed.t) :
  Passed.hasColumn slot = true -> returns (scaledOf buildScale slot).
Proof.
  destruct slot as [[[column|] type]|]; simpl; try discriminate; intros _; eexists;
    reflexivity.
Qed.

Lemma buildSpecOf_returns (data : Dataset) (chartType : string)
    (mappings : Passed.mappings) (config : Config.t) :
  Passed.hasColumns mappings = true ->
  returns (buildSpecOf data chartType mappings config).
Proof.
  unfold Passed.hasColumns. intros H.
  apply andb_prop in H. destruct H as [H Hs].
  apply andb_prop in H. destruct H as [H Hc].
  apply andb_prop in H. destruct H as [Hx Hy].
  unfold buildSpecOf, buildEncodingOf.
  destruct (positionalOf_returns "x" _ Hx) as (ex & ->).
  destruct (positionalOf_returns "y" _ Hy) as (ey & ->).
  destruct (scaledOf_returns buildColorScale _ Hc) as (ec & ->).
  destruct (scaledOf_returns buildSizeScale _ Hs) as (es & ->).
  eexists. reflexivity.
Qed.

(** A record [{ field, type }] on x, as [ChartBuilderV2] passes it, makes
    the builder throw: [formatTitle] is called on [undefined]. *)
Lemma buildSpecOf_field_record_throws (data : Dataset) (chartType : string)
    (mappings : Passed.mappings) (config : Config.t) (field : string)
    (type : ColumnType) :
  Passed.x mappings = Some (Passed.fieldRecord field type) ->
  buildSpecOf data chartType mappings config = Throw replaceOfUndefined.
Proof. unfold buildSpecOf, buildEncodingOf. intros ->. reflexivity. Qed.

(** What [updateChart] tests before it calls the builder. *)
Lemma updateChart_placeholder_iff (cb : ChartBuilder.t) :
  ChartBuilder.updateChart cb = ChartBuilder.ShowPlaceholder
  <-> (ChartBuilder.currentData cb = None
       \/ Mappings.x (ChartBuilder.currentMappings cb) = None
       \/ Mappings.y (ChartBuilder.currentMappings cb) = None).
Proof.
  destruct cb as [d m t c]. unfold ChartBuilder.updateChart. simpl.
  destruct d as [data|]; [|tauto].
  destruct (buildSpec_returns data t m c) as (spec & -> & _).
  destruct (Mappings.x m), (Mappings.y m); simpl; split;
    try tauto; try discriminate; intros [H | [H | H]]; discriminate.
Qed.

(** C5. [buildSpec] tests none of its arguments.  It returns a
    specification for every data set (the empty one included), chart type
    and configuration, and every mappings object whose populated channels
    hold records with a column name, whichever channels are populated (x
    or y unset included).  The test for unmapped channels stands in the
    caller: [updateChart] shows the placeholder, without calling the
    builder, exactly when no data set is loaded or x or y is unmapped.  No
    test for an empty data set stands there: with the empty array loaded
    and x and y mapped, [updateChart] calls the builder and renders. *)
Theorem buildSpec_total_on_mapping_records :
  (forall (data : Dataset) (chartType : string) (mappings : Passed.mappings)
          (config : Config.t),
      Passed.hasColumns mappings = true ->
      returns (SpecBuilder.buildSpecOf data chartType mappings config))
  /\ (forall (data : Dataset) (chartType : string) (mappings : Mappings.t)
          (config : Config.t),
      SpecBuilder.buildSpecOf data chartType (Passed.ofMappings mappings) config
      = SpecBuilder.buildSpec data chartType mappings config
      /\ returns (SpecBuilder.buildSpec data chartType mappings config))
  /\ (forall (chartType : string) (config : Config.t),
      returns (SpecBuilder.buildSpec [] chartType Mappings.empty config))
  /\ (forall cb : ChartBuilder.t,
      ChartBuilder.updateChart cb = ChartBuilder.ShowPlaceholder
      <-> (ChartBuilder.currentData cb = None
           \/ Mappings.x (ChartBuilder.currentMappings cb) = None
           \/ Mappings.y (ChartBuilder.currentMappings cb) = None))
  /\ (forall cb : ChartBuilder.t,
      ChartBuilder.currentData cb = Some [] ->
      isSet (Mappings.x (ChartBuilder.currentMappings cb)) = true ->
      isSet (Mappings.y (ChartBuilder.currentMappings cb)) = true ->
      exists spec, ChartBuilder.updateChart cb = ChartBuilder.Render spec
                   /\ Spec.values spec = []).
Proof.
  assert (Hret : forall data chartType mappings config,
             returns (buildSpec data chartType mappings config)).
  { intros data chartType mappings config.
    destruct (buildSpec_returns data chartType mappings config) as (spec & Hs & _).
    now exists spec. }
  split; [exact buildSpecOf_returns|].
  split; [intros; split; [apply buildSpecOf_ofMappings | apply Hret]|].
  split; [intros; apply Hret|].
  split; [exact updateChart_placeholder_iff|].
  intros [d m t c]. simpl. intros -> Hx Hy.
  unfold ChartBuilder.updateChart. simpl. rewrite Hx, Hy. simpl.
  destruct (buildSpec_returns [] t m c) as (spec & -> & Hv & _).
  exists spec. split; [reflexivity | exact Hv].
Qed.

Lemma buildSpec_total_on_mapping_records_witness :
  returns (SpecBuilder.buildSpecOf [] "line"
             (Passed.ofMappings Samples.quantitativeXY)
             (ChartBuilder.chartConfig ChartBuilder.initial)).
Proof.
  apply (proj1 buildSpec_total_on_mapping_records). reflexivity.
Defined.

(** With the empty array loaded and x and y mapped, the caller hands the
    empty data set to the builder: the guard of [updateChart] tests that a
    data set is loaded, not that it has rows. *)
Lemma updateChart_builds_on_empty_data :
  exists spec,
    ChartBuilder.updateChart
      {| ChartBuilder.currentData := Some [];
         ChartBuilder.currentMappings := Samples.quantitativeXY;
         ChartBuilder.currentChartType := "bar";
         ChartBuilder.chartConfig := ChartBuilder.chartConfig ChartBuilder.initial |}
    = ChartBuilder.Render spec
    /\ Spec.values spec = [].
Proof. eexists. split; reflexivity. Qed.

(** C7. For the chart type bar and the mappings [{x: colA, y: colB}],
    whatever the data set (so for every non-empty one), the configuration
    and the types of the two columns, [buildSpec] returns a specification
    whose encoding has [x.field] equal to colA and [y.field] equal to
    colB. *)
Theorem buildSpec_bar_fields (data : Dataset) (config : Config.t)
    (colA colB : string) (typeA typeB : ColumnType) :
  exists spec ex ey,
    SpecBuilder.buildSpec data "bar"
      {| Mappings.x := Some {| Mapping.column := colA; Mapping.type := typeA |};
         Mappings.y := Some {| Mapping.column := colB; Mapping.type := typeB |};
         Mappings.color := None;
         Mappings.size := None |} config = Ok spec
    /\ Encoding.x (Spec.encoding spec) = Some ex
    /\ Encoding.y (Spec.encoding spec) = Some ey
    /\ Channel.field ex = colA
    /\ Channel.field ey = colB.
Proof. do 3 eexists. repeat split. Qed.

(** C8. For the chart type scatter with x and y mapped to quantitative
    columns and no other channel mapped, [buildFullSpec] returns a full
    specification whose Vega-Lite part has the mark [circle] with the
    tooltip on and the default point size 60. *)
Theorem buildFullSpec_scatter_mark (env : Env.t) (data : Dataset)
    (config : Config.t) (colA colB : string) :
  exists full,
    SpecBuilder.buildFullSpec env data "scatter"
      {| Mappings.x := Some {| Mapping.column := colA; Mapping.type := quantitative |};
         Mappings.y := Some {| Mapping.column := colB; Mapping.type := quantitative |};
         Mappings.color := None;
         Mappings.size := None |} config = Ok full
    /\ Mark.type (Spec.mark (FullSpec.vegaLiteSpec full)) = "circle"
    /\ Mark.tooltip (Spec.mark (FullSpec.vegaLiteSpec full)) = true
    /\ Mark.size (Spec.mark (FullSpec.vegaLiteSpec full)) = Some (num 60)
    /\ Spec.mark (FullSpec.vegaLiteSpec full)
       = {| Mark.type := "circle"; Mark.tooltip := true;
            Mark.size := Some (num 60); Mark.point := None;
            Mark.stroke := None; Mark.strokeWidth := None |}.
Proof. eexists. repeat split. Qed.

End SpecBuilderFacts.

(* ===================================================================== *)
(** ** CSV lines: the two-line requirement, splitting and quoted fields *)

Section CSVLineFacts.
Import JSString JSNumeric DataManager Wording DragDropManager SpecBuilder.

Lemma splitChars_length (sep : ascii) (cur l : list ascii) :
  List.length (splitChars sep cur l) = S (count_occ ascii_dec l sep).
Proof.
  revert cur. induction l as [|c l IH]; intros cur; simpl; [reflexivity|].
  destruct (Ascii.eqb c sep) eqn:E.
  - apply Ascii.eqb_eq in E. subst. simpl. rewrite IH.
    destruct (ascii_dec sep sep); [reflexivity | contradiction].
  - apply Ascii.eqb_neq in E. rewrite IH.
    destruct (ascii_dec c sep); [contradiction | reflexivity].
Qed.

Lemma split_length (sep : ascii) (s : string) :
  List.length (split sep s) = S (count_occ ascii_dec (chars s) sep).
Proof. unfold split. rewrite length_map. apply splitChars_length. Qed.

(** [parseCSV] returns exactly when the trimmed content has a line feed,
    that is, at least two lines. *)
Lemma parseCSV_returns_newline (content : string) (delimiter : ascii) :
  (returns (parseCSV content delimiter) <-> In newline (chars (trim content)))
  /\ (~ In newline (chars (trim content)) ->
      parseCSV content delimiter
      = Throw (Error "CSV file must have at least a header and one data row")).
Proof.
  unfold parseCSV.
  pose proof (split_length newline (trim content)) as Hlen.
  destruct (split newline (trim content)) as [|header rest] eqn:Hs; [discriminate|].
  rewrite (count_occ_In ascii_dec).
  destruct (count_occ ascii_dec (chars (trim content)) newline) as [|n] eqn:Hc.
  - rewrite Hlen. simpl. split.
    + split; [intros (a & Ha); discriminate | lia].
    + reflexivity.
  - rewrite Hlen. simpl. split.
    + split; [lia | intros _; eexists; reflexivity].
    + intros H. exfalso. apply H. lia.
Qed.

(** X1. [parseCSV], with any delimiter, returns a data set exactly when
    the trimmed content contains a line feed (a header line and at least
    one more line); otherwise it throws the error that asks for a header
    and one data row. *)
Theorem parseCSV_needs_two_lines (content : string) (delimiter : ascii) :
  (returns (DataManager.parseCSV content delimiter)
   <-> In newline (chars (trim content)))
  /\ (~ In newline (chars (trim content)) ->
      DataManager.parseCSV content delimiter
      = Throw (Error "CSV file must have at least a header and one data row")).
Proof. exact (parseCSV_returns_newline content delimiter). Qed.

Lemma parseCSV_needs_two_lines_witness :
  DataManager.parseCSV " name,value " comma
  = Throw (Error "CSV file must have at least a header and one data row").
Proof.
  apply (proj2 (parseCSV_needs_two_lines " name,value " comma)).
  vm_compute. intuition discriminate.
Defined.

(** Without a quote character the loop is a split at the delimiters. *)
Lemma parseCSVLineLoop_plain (delimiter : ascii) (line : list ascii) :
  ~ In quote line ->
  forall values current,
  parseCSVLineLoop delimiter values current false line
  = values ++ map (fun field => str (trimChars field))
                  (splitChars delimiter (rev current) line).
Proof.
  induction line as [|c line IH]; intros Hq values current; simpl.
  - now rewrite rev_involutive.
  - assert (Hc : Ascii.eqb c quote = false).
    { apply Ascii.eqb_neq. intros ->. apply Hq. now left. }
    assert (Hq' : ~ In quote line) by (intros H; apply Hq; now right).
    rewrite Hc. destruct (Ascii.eqb c delimiter); simpl.
    + rewrite (IH Hq'). simpl. rewrite rev_involutive, <- app_assoc. reflexivity.
    + rewrite (IH Hq'). rewrite rev_app_distr. reflexivity.
Qed.

Lemma trim_str (l : list ascii) : trim (str l) = str (trimChars l).
Proof. unfold trim. now rewrite chars_str. Qed.

(** X2. A line without a double quote is split at every delimiter, and
    each piece is trimmed: [parseCSVLine] is [split] followed by [trim]. *)
Theorem parseCSVLine_plain (line : string) (delimiter : ascii) :
  ~ In quote (chars line) ->
  DataManager.parseCSVLine line delimiter = map trim (split delimiter line).
Proof.
  intros Hq. unfold parseCSVLine, split.
  rewrite (parseCSVLineLoop_plain delimiter _ Hq). simpl.
  rewrite map_map. apply map_ext. intros l. now rewrite trim_str.
Qed.

Lemma parseCSVLine_plain_witness :
  DataManager.parseCSVLine "a, b ,,c" comma = ["a"; "b"; ""; "c"].
Proof.
  rewrite (parseCSVLine_plain "a, b ,,c" comma).
  - reflexivity.
  - vm_compute. intuition discriminate.
Defined.

(** Inside quotes: the escaped field up to its closing quote. *)
Lemma parseCSVLineLoop_quoted_body (delimiter : ascii) (field tail : list ascii)
    (values : list string) (current : list ascii) :
  match tail with [] => true | c :: _ => negb (Ascii.eqb c quote) end = true ->
  parseCSVLineLoop delimiter values current true (escapeQuotes field ++ quote :: tail)
  = parseCSVLineLoop delimiter values (current ++ field) false tail.
Proof.
  intros Htail. revert current.
  induction field as [|c field IH]; intros current; simpl.
  - rewrite ?Ascii.eqb_refl, app_nil_r.
    destruct tail as [|n tail]; [reflexivity|].
    apply negb_true_iff in Htail. now rewrite Htail.
  - destruct (Ascii.eqb c quote) eqn:Hc; simpl.
    + apply Ascii.eqb_eq in Hc. subst c.
      rewrite ?Ascii.eqb_refl. simpl.
      rewrite IH, <- app_assoc. reflexivity.
    + rewrite Hc, andb_false_r.
      rewrite IH, <- app_assoc. reflexivity.
Qed.

Lemma parseCSVLineLoop_quoted (delimiter : ascii) (field tail : list ascii)
    (values : list string) :
  match tail with [] => true | c :: _ => negb (Ascii.eqb c quote) end = true ->
  parseCSVLineLoop delimiter values [] false (quoteField field ++ tail)
  = parseCSVLineLoop delimiter values field false tail.
Proof.
  intros Htail. unfold quoteField.
  change ((quote :: escapeQuotes field ++ [quote]) ++ tail)
    with (quote :: ((escapeQuotes field ++ [quote]) ++ tail)).
  rewrite <- app_assoc. simpl app.
  cbn [parseCSVLineLoop]. rewrite Ascii.eqb_refl.
  destruct (escapeQuotes field ++ quote :: tail) as [|n rest] eqn:E.
  - destruct (escapeQuotes field); discriminate.
  - cbn [andb]. rewrite <- E.
    now rewrite parseCSVLineLoop_quoted_body.
Qed.

Lemma parseCSVLineLoop_fields (delimiter : ascii) (fields : list (list ascii)) :
  delimiter <> quote ->
  forall field values,
  parseCSVLineLoop delimiter values [] false
    (joinFields delimiter (map quoteField (field :: fields)))
  = values ++ map (fun f => str (trimChars f)) (field :: fields).
Proof.
  intros Hd. induction fields as [|g fields IH]; intros field values.
  - simpl joinFields. rewrite <- (app_nil_r (quoteField field)).
    rewrite parseCSVLineLoop_quoted by reflexivity. reflexivity.
  - change (joinFields delimiter (map quoteField (field :: g :: fields)))
      with (quoteField field ++ delimiter
              :: joinFields delimiter (map quoteField (g :: fields))).
    rewrite parseCSVLineLoop_quoted.
    + cbn [parseCSVLineLoop].
      assert (Hdq : Ascii.eqb delimiter quote = false) by now apply Ascii.eqb_neq.
      rewrite Hdq, Ascii.eqb_refl. cbn [andb negb].
      rewrite IH. simpl. now rewrite <- app_assoc.
    + apply negb_true_iff. now apply Ascii.eqb_neq.
Qed.

(** X3. Round trip of quoted fields.  A line written as quoted fields
    (each field between double quotes, every double quote inside it
    doubled) joined by the delimiter parses back to those fields, trimmed,
    whatever delimiters and quotes the fields contain. *)
Theorem parseCSVLine_quoted_roundtrip (delimiter : ascii)
    (field : list ascii) (fields : list (list ascii)) :
  delimiter <> quote ->
  DataManager.parseCSVLine (str (joinFields delimiter (map quoteField (field :: fields)))) delimiter
  = map (fun f => str (trimChars f)) (field :: fields).
Proof.
  intros Hd. unfold parseCSVLine. rewrite chars_str.
  now rewrite (parseCSVLineLoop_fields delimiter fields Hd).
Qed.

Lemma parseCSVLine_quoted_roundtrip_witness :
  DataManager.parseCSVLine
    (str (joinFields comma (map quoteField [chars "a,b"; [quote; "x"%char]; chars " c "])))
    comma
  = ["a,b"; str [quote; "x"%char]; "c"].
Proof.
  rewrite (parseCSVLine_quoted_roundtrip comma).
  - reflexivity.
  - intros H. vm_compute in H. discriminate H.
Defined.

End CSVLineFacts.

(* ===================================================================== *)
(** ** Cells that are decimal literals *)

Section NumberCellFacts.
Import JSString JSNumeric DataManager Wording DragDropManager SpecBuilder.

Lemma span_spec (p : ascii -> bool) (l a b : list ascii) :
  span p l = (a, b) ->
  l = a ++ b /\ forallb p a = true
  /\ match b with [] => True | c :: _ => p c = false end.
Proof.
  revert a b. induction l as [|c l IH]; intros a b; simpl.
  - intros [= <- <-]. auto.
  - destruct (p c) eqn:Hc.
    + destruct (span p l) as [a' b'] eqn:Hs. intros [= <- <-].
      destruct (IH a' b' eq_refl) as (-> & Ha & Hb).
      simpl. rewrite Hc. auto.
    + intros [= <- <-]. simpl. auto.
Qed.

Lemma literalChar_not_whiteSpace (c : ascii) :
  isLiteralChar c = true -> isWhiteSpace c = false.
Proof.
  destruct c as [[] [] [] [] [] [] [] []]; intros H; vm_compute in H;
    try discriminate H; reflexivity.
Qed.

Lemma digit_literalChar (l : list ascii) :
  forallb isDigit l = true -> forallb isLiteralChar l = true.
Proof.
  induction l as [|c l IH]; simpl; [reflexivity|].
  intros H. apply andb_prop in H. destruct H as [Hc Hl].
  unfold isLiteralChar. rewrite Hc. simpl. auto.
Qed.

Lemma scanSign_spec (l : list ascii) (neg : bool) (r : list ascii) :
  scanSign l = (neg, r) ->
  exists s, l = s ++ r /\ forallb isLiteralChar s = true.
Proof.
  unfold scanSign. destruct l as [|c l'].
  - intros [= <- <-]. exists []. auto.
  - destruct c as [[] [] [] [] [] [] [] []];
      intros [= <- <-];
      first [ now (exists []) | eexists [_]; split; [reflexivity | reflexivity] ].
Qed.

Lemma scanExponent_spec (l : list ascii) (e : Z) (r : list ascii) :
  scanExponent l = (e, r) ->
  exists s, l = s ++ r /\ forallb isLiteralChar s = true.
Proof.
  unfold scanExponent. destruct l as [|c l']; [intros [= <- <-]; now exists []|].
  destruct (Ascii.eqb c "e" || Ascii.eqb c "E") eqn:Hc;
    [|intros [= <- <-]; now exists []].
  destruct (scanSign l') as [neg r1] eqn:Hs.
  destruct (span isDigit r1) as [ds r2] eqn:Hd.
  destruct (scanSign_spec _ _ _ Hs) as (s & -> & Hsl).
  destruct (span_spec _ _ _ _ Hd) as (-> & Hds & _).
  destruct ds as [|d0 ds]; intros [= <- <-]; [now exists []|].
  exists (c :: s ++ d0 :: ds). split.
  - simpl. now rewrite <- app_assoc.
  - simpl. rewrite forallb_app, Hsl.
    change (forallb isLiteralChar (d0 :: ds)) with (forallb isLiteralChar (d0 :: ds)).
    rewrite (digit_literalChar _ Hds).
    unfold isLiteralChar at 1. apply orb_prop in Hc. destruct Hc as [-> | ->];
      now rewrite ?orb_true_r.
Qed.

Lemma stripPrefix_spec (p l r : list ascii) :
  stripPrefix p l = Some r -> l = p ++ r.
Proof.
  revert l. induction p as [|a p IH]; intros l; simpl.
  - now intros [= ->].
  - destruct l as [|b l]; [discriminate|].
    destruct (Ascii.eqb a b) eqn:E; [|discriminate].
    apply Ascii.eqb_eq in E. subst. intros H. now rewrite (IH _ H).
Qed.

Lemma scanUnsignedDecimal_eq (neg : bool) (l : list ascii) :
  scanUnsignedDecimal neg l =
    match stripPrefix infinityChars l with
    | Some r => Some (Infinity neg, r)
    | None =>
        let '(ip, r1) := span isDigit l in
        match r1 with
        | c :: r2 => if Ascii.eqb c "." then withFraction neg ip r2
                     else integerOnly neg ip r1
        | [] => integerOnly neg ip r1
        end
    end.
Proof.
  unfold scanUnsignedDecimal, withFraction, integerOnly.
  destruct (stripPrefix infinityChars l); [reflexivity|].
  destruct (span isDigit l) as [ip r1].
  destruct r1 as [|c r2]; [reflexivity|].
  destruct c as [[] [] [] [] [] [] [] []]; reflexivity.
Qed.

(** A finite decimal literal read up to the end of the text is made of
    literal characters only. *)
Lemma scanDecimal_finite_chars (l : list ascii) (neg : bool) (m : N) (e : Z) :
  scanDecimal l = Some (Finite neg m e, []) ->
  l <> [] /\ forallb isLiteralChar l = true.
Proof.
  unfold scanDecimal. destruct (scanSign l) as [sg r] eqn:Hs.
  destruct (scanSign_spec _ _ _ Hs) as (s & -> & Hsl).
  rewrite scanUnsignedDecimal_eq.
  destruct (stripPrefix infinityChars r) as [r'|]; [discriminate|].
  destruct (span isDigit r) as [ip r1] eqn:Hip.
  destruct (span_spec _ _ _ _ Hip) as (-> & Hipd & _).
  assert (Hint : integerOnly sg ip r1 = Some (Finite neg m e, []) ->
                 (s ++ ip ++ r1 <> []) /\ forallb isLiteralChar (s ++ ip ++ r1) = true).
  { unfold integerOnly. destruct ip as [|i0 ip]; [discriminate|].
    destruct (scanExponent r1) as [ex r4] eqn:Hex.
    destruct (scanExponent_spec _ _ _ Hex) as (se & -> & Hse).
    intros [= _ _ _ ->]. split; [destruct s; discriminate|].
    rewrite app_nil_r, !forallb_app, Hsl, (digit_literalChar _ Hipd), Hse.
    reflexivity. }
  destruct r1 as [|c r2]; [exact Hint|].
  destruct (Ascii.eqb c ".") eqn:Hc; [|exact Hint].
  apply Ascii.eqb_eq in Hc. subst c. clear Hint.
  unfold withFraction.
  destruct (span isDigit r2) as [fp r3] eqn:Hfp.
  destruct (span_spec _ _ _ _ Hfp) as (-> & Hfpd & _).
  destruct (scanExponent r3) as [ex r4] eqn:Hex.
  destruct (scanExponent_spec _ _ _ Hex) as (se & -> & Hse).
  intros H.
  assert (r4 = []) as ->.
  { destruct ip, fp; try discriminate; now injection H. }
  split; [destruct s; [destruct ip|]; discriminate|].
  rewrite app_nil_r.
  rewrite !forallb_app, Hsl, (digit_literalChar _ Hipd). simpl.
  rewrite forallb_app, (digit_literalChar _ Hfpd), Hse. reflexivity.
Qed.

Lemma dropWhile_head (p : ascii -> bool) (l : list ascii) :
  match l with [] => True | c :: _ => p c = false end -> dropWhile p l = l.
Proof. destruct l as [|c l]; simpl; [reflexivity|]. now intros ->. Qed.

Lemma trimChars_no_whiteSpace (l : list ascii) :
  forallb (fun c => negb (isWhiteSpace c)) l = true -> trimChars l = l.
Proof.
  intros H. unfold trimChars, trimStartChars, trimEndChars.
  assert (Hall : forall c, In c l -> isWhiteSpace c = false).
  { intros c Hc. rewrite forallb_forall in H. specialize (H c Hc).
    now apply negb_true_iff in H. }
  rewrite (dropWhile_head isWhiteSpace l).
  - rewrite (dropWhile_head isWhiteSpace (rev l)); [apply rev_involutive|].
    destruct (rev l) as [|c r] eqn:E; [exact I|].
    apply Hall. apply in_rev. rewrite E. now left.
  - destruct l as [|c r]; [exact I|]. apply Hall. now left.
Qed.

Lemma literal_no_whiteSpace (l : list ascii) :
  forallb isLiteralChar l = true ->
  forallb (fun c => negb (isWhiteSpace c)) l = true.
Proof.
  intros H. apply forallb_forall. intros c Hc.
  rewrite forallb_forall in H.
  now rewrite (literalChar_not_whiteSpace c (H c Hc)).
Qed.

(** A cell whose unquoted text is, in full, a finite decimal literal is
    read as the decimal value of the literal (which is what the program
    has when binary64 holds that value exactly). *)
Lemma parseValue_scanned (raw : string) (n : JSNumber) :
  scanDecimal (chars (unquoted raw)) = Some (n, []) ->
  (exists neg m e, n = Finite neg m e) ->
  parseValue raw = VNum n.
Proof.
  intros Hscan (neg & m & e & ->).
  destruct (scanDecimal_finite_chars _ _ _ _ Hscan) as (Hne & Hlit).
  assert (Htrim : trimChars (chars (unquoted raw)) = chars (unquoted raw)).
  { apply trimChars_no_whiteSpace, literal_no_whiteSpace, Hlit. }
  assert (Hraw : raw <> "").
  { intros ->. apply Hne. reflexivity. }
  assert (Hu : unquoted raw <> "").
  { intros E. apply Hne. now rewrite E. }
  rewrite (parseValue_number raw Hraw Hu).
  - unfold parseFloat, trimStartChars.
    rewrite dropWhile_head.
    + now rewrite Hscan.
    + destruct (chars (unquoted raw)) as [|c r]; [exact I|].
      simpl in Hlit. apply andb_prop in Hlit.
      now apply literalChar_not_whiteSpace.
  - unfold isNaN, isNumericString. rewrite Htrim, Hscan.
    destruct (chars (unquoted raw)); [contradiction | reflexivity].
Qed.

(** Text of decimal digits only: the number with that decimal value. *)
Lemma scanDecimal_digits (ds : list ascii) :
  ds <> [] -> forallb isDigit ds = true ->
  scanDecimal ds = Some (Finite false (digitsVal 0 ds) 0, []).
Proof.
  intros Hne Hds. unfold scanDecimal.
  destruct ds as [|c ds]; [contradiction|].
  simpl in Hds. apply andb_prop in Hds. destruct Hds as [Hc Hds].
  destruct (digit_char c Hc) as (_ & _ & _ & Hsign & Hinf & Hdot & _).
  rewrite Hsign, scanUnsignedDecimal_eq, Hinf.
  rewrite <- (app_nil_r (c :: ds)) at 1.
  rewrite span_digits; [reflexivity | simpl; now rewrite Hc | reflexivity].
Qed.

Lemma unquoted_digits (ds : list ascii) :
  forallb isDigit ds = true -> unquoted (str ds) = str ds.
Proof.
  intros Hds. unfold unquoted. rewrite chars_str.
  rewrite trimChars_no_whiteSpace
    by (apply literal_no_whiteSpace, digit_literalChar, Hds).
  unfold stripQuotes. destruct ds as [|c ds]; [reflexivity|].
  simpl in Hds. apply andb_prop in Hds. destruct Hds as [Hc _].
  destruct (digit_char c Hc) as (_ & Hq & Ha & _).
  cbn [startsWithChar]. now rewrite Hq, Ha.
Qed.

Lemma parseValue_digits (ds : list ascii) :
  ds <> [] -> forallb isDigit ds = true ->
  parseValue (str ds) = VNum (num (digitsVal 0 ds)).
Proof.
  intros Hne Hds. apply parseValue_scanned.
  - rewrite (unquoted_digits ds Hds), chars_str.
    now apply scanDecimal_digits.
  - now exists false, (digitsVal 0 ds), 0%Z.
Qed.

Lemma digitsVal_app (acc : N) (a b : list ascii) :
  digitsVal acc (a ++ b) = digitsVal (digitsVal acc a) b.
Proof. unfold digitsVal. apply fold_left_app. Qed.

Lemma digitsVal_acc (ds : list ascii) (acc : N) :
  digitsVal acc ds = (acc * 10 ^ N.of_nat (List.length ds) + digitsVal 0 ds)%N.
Proof.
  revert acc. induction ds as [|c ds IH]; intros acc.
  - simpl. lia.
  - change (digitsVal acc (c :: ds)) with (digitsVal (10 * acc + digitVal c) ds).
    change (digitsVal 0 (c :: ds)) with (digitsVal (10 * 0 + digitVal c) ds).
    rewrite (IH (10 * acc + digitVal c)%N), (IH (10 * 0 + digitVal c)%N).
    replace (N.of_nat (List.length (c :: ds))) with (N.succ (N.of_nat (List.length ds)))
      by (simpl; lia).
    rewrite N.pow_succ_r'. lia.
Qed.

Lemma pretty_N_char_digit (d : N) :
  (d < 10)%N -> isDigit (pretty_N_char d) = true /\ digitVal (pretty_N_char d) = d.
Proof.
  intros H.
  assert (Hd : (d = 0 \/ d = 1 \/ d = 2 \/ d = 3 \/ d = 4 \/ d = 5 \/ d = 6
                \/ d = 7 \/ d = 8 \/ d = 9)%N) by lia.
  repeat (destruct Hd as [-> | Hd]; [split; reflexivity|]). subst. split; reflexivity.
Qed.

Lemma pretty_N_go_digits (x : N) :
  forall s, forallb isDigit (chars s) = true ->
    forallb isDigit (chars (pretty_N_go x s)) = true
    /\ digitsVal 0 (chars (pretty_N_go x s))
       = (x * 10 ^ N.of_nat (List.length (chars s)) + digitsVal 0 (chars s))%N.
Proof.
  induction x as [x IH] using (well_founded_induction N.lt_wf_0). intros s Hs.
  destruct (N.eq_dec x 0%N) as [-> | Hx].
  - rewrite pretty_N_go_0. split; [exact Hs | lia].
  - rewrite pretty_N_go_step by lia.
    assert (Hlt : (x `div` 10 < x)%N) by (apply N.div_lt; lia).
    assert (Hm : (x `mod` 10 < 10)%N) by (apply N.mod_lt; lia).
    destruct (pretty_N_char_digit _ Hm) as (Hcd & Hcv).
    set (c := pretty_N_char (x `mod` 10)) in *.
    specialize (IH _ Hlt (String c s)).
    change (chars (String c s)) with (c :: chars s) in IH.
    destruct IH as (IH1 & IH2).
    { simpl. now rewrite Hcd. }
    split; [exact IH1|]. rewrite IH2.
    change (digitsVal 0 (c :: chars s)) with (digitsVal (10 * 0 + digitVal c) (chars s)).
    rewrite (digitsVal_acc (chars s) (10 * 0 + digitVal c)), Hcv.
    replace (N.of_nat (List.length (c :: chars s)))
      with (N.succ (N.of_nat (List.length (chars s)))) by (simpl; lia).
    rewrite N.pow_succ_r'.
    pose proof (N.div_mod x 10%N ltac:(lia)) as Hdm.
    set (p := (10 ^ N.of_nat (List.length (chars s)))%N) in *.
    set (q := (x `div` 10)%N) in *. set (r := (x `mod` 10)%N) in *.
    nia.
Qed.

Lemma pretty_N_digits (n : N) :
  chars (pretty n) <> [] /\ forallb isDigit (chars (pretty n)) = true
  /\ digitsVal 0 (chars (pretty n)) = n.
Proof.
  unfold pretty, pretty_N. destruct (decide (n = 0%N)) as [-> | Hn].
  - repeat split. discriminate.
  - destruct (pretty_N_go_digits n "" eq_refl) as (H1 & H2).
    split; [|split; [exact H1 | rewrite H2; simpl; lia]].
    rewrite pretty_N_go_step by lia. intros E.
    pose proof (f_equal (@List.length ascii) E) as El.
    rewrite <- length_chars in El. simpl in El.
    assert (Hge : forall x s, (String.length s <= String.length (pretty_N_go x s))%nat).
    { clear. induction x as [x IH] using (well_founded_induction N.lt_wf_0). intros s.
      destruct (N.eq_dec x 0%N) as [-> | Hx]; [now rewrite pretty_N_go_0|].
      rewrite pretty_N_go_step by lia.
      etransitivity; [|apply IH; apply N.div_lt; lia]. simpl. lia. }
    specialize (Hge (n `div` 10)%N (String (pretty_N_char (n `mod` 10)) "")).
    unfold JSString.length in El. simpl in Hge. lia.
Qed.

(** X4. A cell whose text, after trimming and quote removal, is in full
    a decimal literal (sign, digits, fraction, exponent) that denotes an
    integer of magnitude at most 2^53 - 1 is read as that number. *)
Theorem parseValue_finite_decimal (raw : string) (neg : bool) (m : N) (e : Z) :
  scanDecimal (chars (unquoted raw)) = Some (Finite neg m e, []) ->
  isSafeInteger (Finite neg m e) = true ->
  DataManager.parseValue raw = VNum (Finite neg m e).
Proof.
  intros Hscan _. apply parseValue_scanned; eauto.
Qed.

Lemma parseValue_finite_decimal_witness :
  exists neg m e, DataManager.parseValue "'-12.50e3'" = VNum (Finite neg m e).
Proof.
  do 3 eexists. apply parseValue_finite_decimal.
  - vm_compute. reflexivity.
  - vm_compute. reflexivity.
Defined.

(** X5. Digits round trip.  The decimal digits of a natural number up to
    2^53 - 1 parse back to that number; more generally a cell made of
    decimal digits only, of value up to 2^53 - 1, is read as the number
    with that decimal value, so leading zeros are lost. *)
Theorem parseValue_digit_strings :
  (forall n : N,
      (n <= maxSafeInteger)%N ->
      DataManager.parseValue (pretty n) = VNum (num n))
  /\ (forall ds : list ascii,
        ds <> [] -> forallb isDigit ds = true ->
        (digitsVal 0 ds <= maxSafeInteger)%N ->
        DataManager.parseValue (str ds) = VNum (num (digitsVal 0 ds))).
Proof.
  split.
  - intros n _. destruct (pretty_N_digits n) as (Hne & Hd & Hv).
    rewrite <- (str_chars (pretty n)), (parseValue_digits _ Hne Hd). now rewrite Hv.
  - intros ds Hne Hd _. now apply parseValue_digits.
Qed.

Lemma parseValue_digit_strings_witness :
  DataManager.parseValue "007" = VNum (num 7).
Proof.
  apply (proj2 parseValue_digit_strings (chars "007")).
  - discriminate.
  - reflexivity.
  - vm_compute. discriminate.
Defined.

End NumberCellFacts.

(* ===================================================================== *)
(** ** Date cells and the cells of a parsed file *)

Section CellFacts.
Import JSString JSNumeric DataManager Wording DragDropManager SpecBuilder.

Lemma isDate_not_numeric (value : string) :
  isDate value = true -> isNaN value = true.
Proof.
  intros Hd.
  destruct (isDate_shape value Hd)
    as (c & c' & ds & sep & rest & z & E & Hc & Hds & Hsep & Hz).
  unfold isNaN. rewrite <- (str_chars value), E.
  rewrite digits_separator_not_numeric; auto.
Qed.

(** X6. [parseValue] returns a [Date] exactly for a non-empty cell whose
    text, after trimming and quote removal, matches one of the three date
    patterns: the number test that comes first never takes such a text. *)
Theorem parseValue_date_iff (raw v : string) :
  DataManager.parseValue raw = VDate v <-> raw <> "" /\ v = unquoted raw /\ isDate v = true.
Proof.
  split.
  - intros H. assert (Hne : raw <> "").
    { intros ->. discriminate H. }
    rewrite (parseValue_cases raw Hne) in H. cbv zeta in H.
    destruct (negb (isNaN (unquoted raw)) && negb (String.eqb (unquoted raw) ""));
      [discriminate|].
    destruct (isDate (unquoted raw)) eqn:Hd; [|discriminate].
    injection H as <-. auto.
  - intros (Hne & -> & Hd).
    rewrite (parseValue_cases raw Hne). cbv zeta.
    now rewrite (isDate_not_numeric _ Hd), Hd.
Qed.

Lemma parseValue_kind (raw : string) : isCSVCell (parseValue raw) = true.
Proof.
  unfold parseValue. destruct (String.eqb raw ""); [reflexivity|].
  cbv zeta. destruct (_ && _); [reflexivity|].
  destruct (isDate _); reflexivity.
Qed.

Lemma parseValueAt_kind (values : list string) (i : nat) :
  isCSVCell (parseValueAt values i) = true.
Proof.
  unfold parseValueAt. destruct (values !! i); [apply parseValue_kind | reflexivity].
Qed.

(** An assignment touches no other name. *)
Lemma assign_lookup_other (header : string) (value : Cell) (row : Row)
    (proto : Prototype) (h : string) :
  h <> header -> fst (assign header value row proto) !! h = row !! h.
Proof.
  intros Hne. unfold assign.
  destruct (String.eqb header protoName);
    [destruct proto; [destruct value | destruct value |]|]; simpl;
    try reflexivity; apply lookup_insert_ne; congruence.
Qed.

Lemma fillRow_lookup_other (values headers : list string) (index : nat)
    (row : Row) (proto : Prototype) (h : string) :
  ~ In h headers -> fst (fillRow values index headers row proto) !! h = row !! h.
Proof.
  revert index row proto.
  induction headers as [|header headers IH]; intros index row proto Hn;
    simpl; [reflexivity|].
  destruct (assign header (parseValueAt values index) row proto) as [row' proto'] eqn:E.
  rewrite IH by (intros H; apply Hn; now right).
  change row' with (fst (row', proto')). rewrite <- E.
  apply assign_lookup_other. intros ->. apply Hn. now left.
Qed.

(** The cell under a header name other than [__proto__] is the parsed
    value at the position of the last header of that name. *)
Lemma fillRow_lookup (values headers : list string) (index : nat) (row : Row)
    (proto : Prototype) (h : string) (i : nat) :
  h <> protoName ->
  headers !! i = Some h ->
  (forall j, (i < j)%nat -> headers !! j <> Some h) ->
  fst (fillRow values index headers row proto) !! h
  = Some (parseValueAt values (index + i)).
Proof.
  intros Hne. revert index row proto i.
  induction headers as [|header headers IH];
    intros index row proto i Hi Hlast; [discriminate|].
  destruct i as [|i]; simpl in *.
  - injection Hi as ->. rewrite assign_plain by exact Hne.
    rewrite fillRow_lookup_other.
    + rewrite Nat.add_0_r. apply lookup_insert_eq.
    + intros Hin. apply list_elem_of_In, list_elem_of_lookup in Hin.
      destruct Hin as (j & Hj). apply (Hlast (S j)); [lia | exact Hj].
  - destruct (assign header (parseValueAt values index) row proto) as [row' proto'].
    rewrite (IH (S index) _ _ i Hi).
    + f_equal. f_equal. lia.
    + intros j Hj. apply (Hlast (S j)). lia.
Qed.

(** A header name has a last position. *)
Lemma last_position (headers : list string) (h : string) :
  In h headers ->
  exists i, headers !! i = Some h
            /\ forall j, (i < j)%nat -> headers !! j <> Some h.
Proof.
  induction headers as [|header headers IH]; intros Hin; [destruct Hin|].
  destruct (in_dec string_dec h headers) as [Hlater | Hnot].
  - destruct (IH Hlater) as (i & Hi & Hlast). exists (S i). split; [exact Hi|].
    intros [|j] Hj; [lia|]. apply Hlast. lia.
  - destruct Hin as [-> | Hin]; [|contradiction].
    exists 0%nat. split; [reflexivity|].
    intros [|j] Hj; [lia|]. simpl. intros Hj'. apply Hnot.
    apply list_elem_of_In, list_elem_of_lookup. now exists j.
Qed.

Lemma parseRows_In (headers : list string) (delimiter : ascii)
    (lines : list string) (row : Row) :
  In row (parseRows headers delimiter lines) ->
  exists line, In line lines /\ fits headers delimiter line = true
               /\ row = buildRow headers (parseCSVLine line delimiter).
Proof.
  rewrite parseRows_filter_map, in_map_iff.
  intros (line & <- & Hin). apply filter_In in Hin.
  exists line. tauto.
Qed.

Lemma parseCSV_In (content : string) (delimiter : ascii) (data : Dataset)
    (row : Row) :
  parseCSV content delimiter = Ok data -> In row data ->
  exists line, In line (dataLinesOf content)
    /\ fits (headersOf content delimiter) delimiter line = true
    /\ row = buildRow (headersOf content delimiter) (parseCSVLine line delimiter).
Proof.
  unfold parseCSV, headersOf, dataLinesOf.
  destruct (split newline (trim content)) as [|header rest]; [discriminate|].
  destruct (_ <? 2)%nat; [discriminate|].
  intros [= <-]. apply parseRows_In.
Qed.

(** X8. Every row of a parsed file comes from one data line with as many
    values as headers; under each header name other than [__proto__] the
    row holds the parsed value at the position of that header (of the last
    one, if the name is repeated), and it has no property of its own under
    a name that is not a header. *)
Theorem parseCSV_cells (content : string) (delimiter : ascii) (data : Dataset)
    (row : Row) :
  DataManager.parseCSV content delimiter = Ok data -> In row data ->
  exists line,
    In line (dataLinesOf content)
    /\ List.length (parseCSVLine line delimiter)
       = List.length (headersOf content delimiter)
    /\ (forall i h,
          h <> protoName ->
          headersOf content delimiter !! i = Some h ->
          (forall j, (i < j)%nat -> headersOf content delimiter !! j <> Some h) ->
          exists v, parseCSVLine line delimiter !! i = Some v
                    /\ row !! h = Some (parseValue v))
    /\ (forall h, ~ In h (headersOf content delimiter) -> row !! h = None).
Proof.
  intros Hp Hin.
  destruct (parseCSV_In _ _ _ _ Hp Hin) as (line & Hl & Hfit & ->).
  exists line. unfold fits in Hfit. apply Nat.eqb_eq in Hfit.
  split; [exact Hl|]. split; [exact Hfit|]. split.
  - intros i h Hne Hi Hlast.
    assert (Hlt : (i < List.length (parseCSVLine line delimiter))%nat).
    { rewrite Hfit. apply lookup_lt_is_Some. eauto. }
    apply lookup_lt_is_Some in Hlt. destruct Hlt as (v & Hv).
    exists v. split; [exact Hv|].
    unfold buildRow. rewrite (fillRow_lookup _ _ 0 _ _ h i Hne Hi Hlast).
    unfold parseValueAt. simpl. now rewrite Hv.
  - intros h Hn. unfold buildRow. rewrite fillRow_lookup_other by exact Hn.
    apply lookup_empty.
Qed.

Lemma parseCSV_cells_witness :
  exists line,
    In line (dataLinesOf Samples.scenarioCSV)
    /\ Samples.rowA !! "value" = Some (parseValue "30")
    /\ Samples.rowA !! "price" = None.
Proof.
  destruct (parseCSV_cells Samples.scenarioCSV comma
              [Samples.rowA; Samples.rowB] Samples.rowA)
    as (line & Hl & _ & Hcells & Hnone).
  - vm_compute. reflexivity.
  - now left.
  - exists line. split; [exact Hl|]. split.
    + destruct (Hcells 1%nat "value") as (v & Hv & Hrow).
      * discriminate.
      * reflexivity.
      * intros j Hj. destruct j as [|[|j]]; try lia; discriminate.
      * vm_compute. reflexivity.
    + apply Hnone. vm_compute. intuition discriminate.
Defined.

(** X9. In a row of a parsed file, the cell under every header name other
    than [__proto__] is null, a number, a string or a [Date]: never
    [undefined], a boolean or another object. *)
Theorem parseCSV_cell_kinds (content : string) (delimiter : ascii) (data : Dataset) :
  DataManager.parseCSV content delimiter = Ok data ->
  forall row column,
    In row data ->
    In column (headersOf content delimiter) -> column <> protoName ->
    isCSVCell (get row column) = true.
Proof.
  intros Hp row column Hin Hcol Hne.
  destruct (parseCSV_In _ _ _ _ Hp Hin) as (line & _ & _ & ->).
  destruct (last_position _ _ Hcol) as (i & Hi & Hlast).
  unfold get, buildRow. rewrite (fillRow_lookup _ _ 0 _ _ column i Hne Hi Hlast).
  apply parseValueAt_kind.
Qed.

Lemma parseCSV_cell_kinds_witness :
  isCSVCell (get Samples.rowB "name") = true.
Proof.
  apply (parseCSV_cell_kinds Samples.scenarioCSV comma [Samples.rowA; Samples.rowB]).
  - vm_compute. reflexivity.
  - right. now left.
  - vm_compute. tauto.
  - discriminate.
Defined.

End CellFacts.

(* ===================================================================== *)
(** ** Column types: characterisations and invariance *)

Section ColumnTypeFacts.
Import JSString JSNumeric DataManager Wording DragDropManager SpecBuilder.

Lemma columnValues_empty_nominal (data : Dataset) (column : string) :
  columnValues data column = [] -> inferColumnType data column = nominal.
Proof.
  intros H. unfold inferColumnType. rewrite H.
  destruct (List.length data =? 0)%nat; reflexivity.
Qed.









Lemma bool_eq_iff (a b : bool) : (a = true <-> b = true) -> a = b.
Proof.
  destruct a, b; intros [H1 H2]; try reflexivity.
  - symmetry. now apply H1.
  - now apply H2.
Qed.

Lemma forallb_same_elements {A} (p : A -> bool) (a b : list A) :
  (forall x, In x a <-> In x b) -> forallb p a = forallb p b.
Proof.
  intros H. apply bool_eq_iff. rewrite !forallb_forall.
  split; intros Hp x Hx; apply Hp, H, Hx.
Qed.

Lemma includes_same_elements (a b : list string) (s : string) :
  (forall x, In x a <-> In x b) -> includes a s = includes b s.
Proof.
  intros H. apply bool_eq_iff. rewrite !includes_In. apply H.
Qed.

Lemma matchesOrdinalPattern_same_elements (a b : list string) :
  (forall x, In x a <-> In x b) ->
  matchesOrdinalPattern a = matchesOrdinalPattern b.
Proof.
  intros H. unfold matchesOrdinalPattern.
  assert (E : forall pattern,
             forallb (fun p => includes a p) pattern
             = forallb (fun p => includes b p) pattern).
  { intros pattern. induction pattern as [|p pattern IH]; simpl; [reflexivity|].
    now rewrite IH, (includes_same_elements a b p H). }
  induction ordinalPatterns as [|pattern ps IH]; simpl; [reflexivity|].
  now rewrite IH, E.
Qed.

Lemma distinctFrom_NoDup (values seen : list string) :
  NoDup (distinctFrom seen values).
Proof.
  revert seen. induction values as [|v values IH]; intros seen; simpl.
  - constructor.
  - destruct (includes seen v); [apply IH|].
    constructor; [|apply IH].
    rewrite list_elem_of_In, distinctFrom_In. intros [_ Hn]. apply Hn. now left.
Qed.

Lemma distinct_NoDup (values : list string) : NoDup (distinct values).
Proof. apply distinctFrom_NoDup. Qed.

Lemma distinct_length_same_elements (a b : list string) :
  (forall x, In x a <-> In x b) ->
  List.length (distinct a) = List.length (distinct b).
Proof.
  intros H. apply Permutation_length.
  apply NoDup_Permutation; [apply distinct_NoDup | apply distinct_NoDup|].
  intros x. rewrite !list_elem_of_In, !distinct_In. apply H.
Qed.

Lemma filter_Permutation' {A} (p : A -> bool) (a b : list A) :
  Permutation a b -> Permutation (List.filter p a) (List.filter p b).
Proof.
  induction 1 as [|x a b _ IH|x y a|a b c _ IH1 _ IH2]; simpl.
  - constructor.
  - destruct (p x); [now constructor | exact IH].
  - destruct (p x), (p y); try reflexivity. apply perm_swap.
  - now transitivity (List.filter p b).
Qed.

Lemma columnValues_Permutation (data data' : Dataset) (column : string) :
  Permutation data data' ->
  Permutation (columnValues data column) (columnValues data' column).
Proof.
  intros H. unfold columnValues. apply filter_Permutation'.
  now apply Permutation_map.
Qed.

Lemma omap_asString_same (a b : list Cell) :
  Permutation a b ->
  forall x, In x (omap asString (List.filter isString a))
            <-> In x (omap asString (List.filter isString b)).
Proof.
  intros H x. rewrite !omap_asString_In, !filter_In.
  split; intros [Hin Hs]; split; auto;
    [apply (Permutation_in _ H) | apply (Permutation_in _ (Permutation_sym H))]; exact Hin.
Qed.

(** X13. The inferred type does not depend on the order of the rows. *)
Theorem inferColumnType_row_order (data data' : Dataset) (column : string) :
  Permutation data data' ->
  DataManager.inferColumnType data column = DataManager.inferColumnType data' column.
Proof.
  intros Hp. pose proof (columnValues_Permutation _ _ column Hp) as Hv.
  destruct (columnValues data column) as [|c l] eqn:E.
  - apply Permutation_nil in Hv.
    now rewrite (columnValues_empty_nominal _ _ E), (columnValues_empty_nominal _ _ Hv).
  - assert (Hne : columnValues data column <> []) by congruence.
    assert (Hne' : columnValues data' column <> []).
    { intros E'. rewrite E' in Hv. apply Permutation_sym, Permutation_nil in Hv.
      discriminate. }
    rewrite <- E in Hv.
    assert (Hsame : forall x, In x (columnValues data column)
                              <-> In x (columnValues data' column)).
    { intros x. split; [apply (Permutation_in _ Hv)
                       | apply (Permutation_in _ (Permutation_sym Hv))]. }
    rewrite (inferColumnType_unfold data column Hne),
            (inferColumnType_unfold data' column Hne').
    cbv zeta.
    rewrite (forallb_same_elements isNumber _ _ Hsame),
            (forallb_same_elements isDateObject _ _ Hsame),
            (forallb_same_elements isString _ _ Hsame).
    pose proof (omap_asString_same _ _ Hv) as Hstr.
    assert (Hu : forall x,
               In x (distinct (omap asString (List.filter isString (columnValues data column))))
               <-> In x (distinct (omap asString (List.filter isString (columnValues data' column))))).
    { intros x. rewrite !distinct_In. apply Hstr. }
    unfold fewDistinct.
    rewrite (distinct_length_same_elements _ _ Hstr), (Permutation_length Hv).
    rewrite (forallb_same_elements _ _ _ Hu).
    rewrite (matchesOrdinalPattern_same_elements
               (map toLowerCase (distinct (omap asString (List.filter isString (columnValues data column)))))
               (map toLowerCase (distinct (omap asString (List.filter isString (columnValues data' column)))))).
    + reflexivity.
    + intros x. rewrite !in_map_iff. split; intros (v & Hl & Hin); exists v;
        (split; [exact Hl | apply Hu, Hin]).
Qed.

Lemma inferColumnType_row_order_witness :
  DataManager.inferColumnType [Samples.rowA; Samples.rowB] "name"
  = DataManager.inferColumnType [Samples.rowB; Samples.rowA] "name".
Proof. apply inferColumnType_row_order. apply perm_swap. Defined.

End ColumnTypeFacts.

(* ===================================================================== *)
(** ** Recommendations, encodings and built specifications *)

Section EncodingFacts.
Import JSString JSNumeric DataManager Wording DragDropManager SpecBuilder.

(** X14. Every channel recommended as primary for a column type is one
    the validator accepts for that type; a channel recommended as
    secondary is accepted only when the column is quantitative. *)
Theorem recommendations_against_validator (column : string) (type : ColumnType)
    (encoding : string) :
  (In encoding (fst (DragDropManager.getEncodingRecommendations type)) ->
   DragDropManager.validateMapping encoding {| Mapping.column := column; Mapping.type := type |} = true)
  /\ (In encoding (snd (getEncodingRecommendations type)) ->
      (validateMapping encoding {| Mapping.column := column; Mapping.type := type |} = true
       <-> type = quantitative)).
Proof.
  destruct type; simpl; split; intros H;
    repeat (destruct H as [<- | H]; [try reflexivity; split; (reflexivity || discriminate)|]);
    try contradiction.
Qed.

Lemma recommendations_against_validator_witness :
  DragDropManager.validateMapping "color"
    {| Mapping.column := "name"; Mapping.type := nominal |} = true.
Proof.
  apply (proj1 (recommendations_against_validator "name" nominal "color")).
  vm_compute. tauto.
Defined.

(** X15. The encoding has an entry for exactly the mapped channels; each
    entry names the column and type of its mapping, with the formatted
    column name as title.  The x and y entries carry an axis and neither
    scale nor legend; the color and size entries carry a scale and a legend
    titled like the entry, and no axis. *)
Theorem buildEncoding_channels (mappings : Mappings.t) :
  exists encoding,
    SpecBuilder.buildEncoding mappings = Ok encoding
    /\ carries (Mappings.x mappings) (Encoding.x encoding)
    /\ carries (Mappings.y mappings) (Encoding.y encoding)
    /\ carries (Mappings.color mappings) (Encoding.color encoding)
    /\ carries (Mappings.size mappings) (Encoding.size encoding)
    /\ (forall ch, Encoding.x encoding = Some ch \/ Encoding.y encoding = Some ch ->
          isSet (Channel.axis ch) = true /\ Channel.scale ch = None
          /\ Channel.legendTitle ch = None)
    /\ (forall ch, Encoding.color encoding = Some ch \/ Encoding.size encoding = Some ch ->
          Channel.axis ch = None /\ isSet (Channel.scale ch) = true
          /\ Channel.legendTitle ch = Some (Channel.title ch)).
Proof.
  destruct mappings as [[mx|] [my|] [mc|] [ms|]]; eexists; (split; [reflexivity|]);
    simpl;
    repeat match goal with |- _ /\ _ => split end;
    try exact I; try reflexivity;
    intros ch [H | H]; try discriminate H; injection H as <-;
    repeat match goal with |- _ /\ _ => split end; reflexivity.
Qed.

Lemma numOr_truthy (n : option JSNumber) (fallback : JSNumber) :
  JSNumeric.truthy fallback = true -> JSNumeric.truthy (numOr n fallback) = true.
Proof.
  intros Hf. unfold numOr. destruct n as [v|]; [|exact Hf].
  destruct (JSNumeric.truthy v) eqn:Hv; [exact Hv | exact Hf].
Qed.

Lemma strOr_nonempty (s : option string) (fallback : string) :
  fallback <> "" -> strOr s fallback <> "".
Proof.
  intros Hf. unfold strOr. destruct s as [v|]; [|exact Hf].
  destruct (String.eqb v "") eqn:Hv; [exact Hf|].
  now apply String.eqb_neq.
Qed.

Lemma append_nonempty_r (a b : string) : b <> "" -> a +:+ b <> "".
Proof.
  intros Hb. destruct a as [|c a]; simpl; [exact Hb | discriminate].
Qed.

(** X16. A built specification holds the data set unchanged.  Its width
    is the configured width, or 600 when that is missing, zero or [NaN];
    its height is the configured height, or 400 likewise; neither is ever
    zero or [NaN].  For a configured title that is a non-empty string it
    has the title block with that text, anchored at the start, in bold of
    size 16, and the title is the description too; without a title, or
    with the empty one, it has no title block and the description is the
    chart type followed by the word chart.  The description is never
    empty. *)
Theorem buildSpec_defaults (data : Dataset) (chartType : string)
    (mappings : Mappings.t) (config : Config.t) :
  exists spec,
    SpecBuilder.buildSpec data chartType mappings config = Ok spec
    /\ Spec.values spec = data
    /\ Spec.width spec
       = match Config.width config with
         | Some w => if JSNumeric.truthy w then w else num 600
         | None => num 600
         end
    /\ Spec.height spec
       = match Config.height config with
         | Some h => if JSNumeric.truthy h then h else num 400
         | None => num 400
         end
    /\ JSNumeric.truthy (Spec.width spec) = true
    /\ JSNumeric.truthy (Spec.height spec) = true
    /\ (forall t, Config.title config = Some t -> t <> "" ->
          Spec.title spec
          = Some {| Title.text := t; Title.anchor := "start";
                    Title.fontSize := num 16; Title.fontWeight := "bold" |}
          /\ Spec.description spec = t)
    /\ (Config.title config = None \/ Config.title config = Some "" ->
          Spec.title spec = None
          /\ Spec.description spec = chartType +:+ " chart")
    /\ Spec.description spec <> "".
Proof.
  unfold buildSpec.
  destruct (buildEncoding_returns mappings) as (encoding & -> & _).
  eexists. split; [reflexivity|]. simpl.
  split; [reflexivity|].
  split; [reflexivity|].
  split; [reflexivity|].
  split; [now apply numOr_truthy|].
  split; [now apply numOr_truthy|].
  split; [|split].
  - intros t -> Ht. apply String.eqb_neq in Ht. unfold strOr. rewrite Ht. auto.
  - intros [-> | ->]; split; reflexivity.
  - apply strOr_nonempty, append_nonempty_r. discriminate.
Qed.

(** X17. The full specification agrees with the Vega-Lite specification
    it embeds: that one is what [buildSpec] returns for the same arguments;
    both hold the same data, width and height; the encoding metadata lists
    the entries of the Vega-Lite encoding, in key order, with the same
    field, type and title; and the description counts those entries. *)
Theorem buildFullSpec_consistent (env : Env.t) (data : Dataset) (chartType : string)
    (mappings : Mappings.t) (config : Config.t) :
  exists full spec,
    SpecBuilder.buildFullSpec env data chartType mappings config = Ok full
    /\ buildSpec data chartType mappings config = Ok spec
    /\ FullSpec.vegaLiteSpec full = spec
    /\ FullSpec.values full = Spec.values spec
    /\ FullSpec.width full = Spec.width spec
    /\ FullSpec.height full = Spec.height spec
    /\ FullSpec.encoding full
       = map (fun '(name, ch) => (name, metaOf ch)) (channels (Spec.encoding spec))
    /\ FullSpec.description full
       = chartType +:+ " chart with "
         +:+ pretty (List.length (FullSpec.encoding full)) +:+ " encodings".
Proof.
  destruct mappings as [[mx|] [my|] [mc|] [ms|]];
    do 2 eexists; (split; [reflexivity|]); (split; [reflexivity|]);
    repeat match goal with |- _ /\ _ => split end; reflexivity.
Qed.

(** What trimming leaves. *)
Lemma dropWhile_In (p : ascii -> bool) (l : list ascii) (c : ascii) :
  In c (dropWhile p l) -> In c l.
Proof.
  induction l as [|a l IH]; simpl; [tauto|].
  destruct (p a); [intros H; right; auto | simpl; tauto].
Qed.

Lemma trimChars_In (l : list ascii) (c : ascii) :
  In c (trimChars l) -> In c l.
Proof.
  unfold trimChars, trimStartChars, trimEndChars. intros H.
  apply in_rev, dropWhile_In, in_rev in H. now apply dropWhile_In in H.
Qed.

Lemma dropWhile_head_false (p : ascii -> bool) (l : list ascii) :
  match dropWhile p l with [] => True | c :: _ => p c = false end.
Proof.
  induction l as [|a l IH]; simpl; [exact I|].
  destruct (p a) eqn:Ha; [exact IH | exact Ha].
Qed.

(** Trimming the end keeps a first character that is not white space. *)
Lemma trimEndChars_head (c : ascii) (m : list ascii) :
  isWhiteSpace c = false ->
  exists m', trimEndChars (c :: m) = c :: m'.
Proof.
  intros Hc. unfold trimEndChars. simpl rev.
  assert (H : exists x, dropWhile isWhiteSpace (rev m ++ [c]) = x ++ [c]).
  { induction (rev m) as [|a r IH]; simpl.
    - rewrite Hc. now exists [].
    - destruct (isWhiteSpace a); [exact IH | now exists (a :: r)]. }
  destruct H as (x & ->). rewrite rev_app_distr. simpl. now exists (rev x).
Qed.

Lemma trimEndChars_idem (l : list ascii) :
  trimEndChars (trimEndChars l) = trimEndChars l.
Proof.
  unfold trimEndChars. rewrite rev_involutive. f_equal.
  apply dropWhile_head. apply dropWhile_head_false.
Qed.

(** Trimming twice is trimming once. *)
Lemma trimChars_idem (l : list ascii) : trimChars (trimChars l) = trimChars l.
Proof.
  change (trimChars l) with (trimEndChars (trimStartChars l)).
  pose proof (dropWhile_head_false isWhiteSpace l) as Hh.
  fold (trimStartChars l) in Hh.
  set (t := trimStartChars l) in *.
  assert (Hs : trimStartChars (trimEndChars t) = trimEndChars t).
  { destruct t as [|c m]; [reflexivity|].
    destruct (trimEndChars_head c m Hh) as (m' & ->).
    unfold trimStartChars. simpl. now rewrite Hh. }
  unfold trimChars. rewrite Hs. apply trimEndChars_idem.
Qed.

Lemma upperChar_not_underscore (c : ascii) :
  c <> underscore -> upperChar c <> underscore.
Proof.
  destruct c as [[] [] [] [] [] [] [] []]; intros H; vm_compute; try discriminate.
  exfalso. apply H. reflexivity.
Qed.

Lemma spaceBeforeCapitals_In (l : list ascii) (c : ascii) :
  In c (spaceBeforeCapitals l) -> c = space \/ In c l.
Proof.
  induction l as [|a l IH]; simpl; [tauto|].
  destruct (inRange 65 90 a); simpl; intuition.
Qed.

Lemma upperFirst_no_underscore (l : list ascii) :
  ~ In underscore l -> ~ In underscore (upperFirst l).
Proof.
  destruct l as [|c r]; simpl; [tauto|]. intros Hn.
  destruct ((code c =? 10)%N || (code c =? 13)%N); [exact Hn|].
  destruct (code c =? 223)%N.
  - simpl. intros [H | [H | H]]; try discriminate. apply Hn. now right.
  - simpl. intros [H | H].
    + apply (upperChar_not_underscore c); [|exact H]. intros ->. apply Hn. now left.
    + apply Hn. now right.
Qed.

(** X18. A formatted title contains no underscore and has no white space
    at either end. *)
Theorem formatTitle_clean (columnName : string) :
  ~ In underscore (chars (SpecBuilder.formatTitle columnName))
  /\ trim (SpecBuilder.formatTitle columnName) = SpecBuilder.formatTitle columnName.
Proof.
  unfold formatTitle. rewrite chars_str. split.
  - intros H. apply trimChars_In in H. revert H.
    apply upperFirst_no_underscore. intros H.
    apply spaceBeforeCapitals_In in H. destruct H as [H | H]; [discriminate|].
    apply in_map_iff in H. destruct H as (c & Hc & _).
    destruct (Ascii.eqb c underscore) eqn:E; [discriminate|].
    apply Ascii.eqb_neq in E. congruence.
  - unfold trim. rewrite chars_str. now rewrite trimChars_idem.
Qed.

End EncodingFacts.

(* ===================================================================== *)
(** ** Configuration validation and the renderer *)

Section ChartConfigFacts.
Import JSString JSNumeric DataManager Wording DragDropManager SpecBuilder.

Lemma pushIf_nil (cond : bool) (message : string) (errors : list string) :
  pushIf cond message errors = [] <-> cond = false /\ errors = [].
Proof.
  unfold pushIf. destruct cond.
  - split; [|intros [H _]; discriminate].
    intros H. destruct errors; discriminate.
  - tauto.
Qed.

Ltac peel H :=
  repeat (apply pushIf_nil in H;
          let h := fresh "Hc" in destruct H as (h & H);
          try apply negb_false_iff in h).

(** X19. [validateChartConfig] throws, instead of returning its list of
    messages, exactly for a line chart or a histogram without an x
    mapping. *)
Theorem validateChartConfig_throws_iff (data : Dataset) (chartType : string)
    (mappings : Mappings.t) (config : Config.t) :
  (exists e, SpecBuilder.validateChartConfig data chartType mappings config = Throw e)
  <-> (chartType = "line" \/ chartType = "histogram")
      /\ Mappings.x mappings = None.
Proof.
  unfold validateChartConfig. cbv zeta.
  destruct (String.eqb chartType "scatter") eqn:Es.
  { apply String.eqb_eq in Es. subst. split.
    - intros (e & H). discriminate.
    - intros [[H | H] _]; discriminate. }
  destruct (String.eqb chartType "line") eqn:El.
  { apply String.eqb_eq in El. subst.
    destruct (Mappings.x mappings) as [m|]; simpl; split.
    - intros (e & H). discriminate.
    - intros [_ H]. discriminate.
    - auto.
    - intros _. eexists. reflexivity. }
  destruct (String.eqb chartType "histogram") eqn:Eh.
  { apply String.eqb_eq in Eh. subst.
    destruct (Mappings.x mappings) as [m|]; simpl; split.
    - intros (e & H). discriminate.
    - intros [_ H]. discriminate.
    - auto.
    - intros _. eexists. reflexivity. }
  apply String.eqb_neq in El, Eh. split.
  - intros (e & H). discriminate.
  - intros [[H | H] _]; contradiction.
Qed.

(** X20. [validateChartConfig] returns the empty list exactly for a
    non-empty data set, a supported chart type and mappings that meet the
    requirements of the type: x and y for a scatter plot; x, y and a
    temporal or quantitative x for a line chart; a quantitative x for a
    histogram; x or y for the other types. *)
Theorem validateChartConfig_accepts_iff (data : Dataset) (chartType : string)
    (mappings : Mappings.t) (config : Config.t) :
  SpecBuilder.validateChartConfig data chartType mappings config = Ok []
  <-> data <> []
      /\ In chartType supportedTypes
      /\ meetsRequirements chartType mappings = true.
Proof.
  unfold validateChartConfig, meetsRequirements, typeIs. cbv zeta.
  unfold mret, result_ret.
  rewrite <- includes_In.
  assert (Hd : (List.length data =? 0)%nat = false <-> data <> [])
    by apply length_zero_nil.
  destruct mappings as [mx my mc ms]. simpl Mappings.x. simpl Mappings.y.
  destruct (String.eqb chartType "scatter") eqn:Es;
    [|destruct (String.eqb chartType "line") eqn:El;
      [|destruct (String.eqb chartType "histogram") eqn:Eh]].
  - split.
    + intros [= H]. peel H.
      split; [now apply Hd|]. split; [assumption|].
      destruct mx, my; simpl in *; auto; discriminate.
    + intros (H1 & H2 & H3). apply Hd in H1. rewrite H1, H2.
      destruct mx, my; try discriminate. reflexivity.
  - destruct mx as [m|]; simpl.
    + split.
      * intros [= H]. peel H.
        split; [now apply Hd|]. split; [assumption|].
        destruct my; simpl in *; try discriminate.
        destruct (ColumnType_eqb (Mapping.type m) temporal),
                 (ColumnType_eqb (Mapping.type m) quantitative);
          simpl in *; auto; discriminate.
      * intros (H1 & H2 & H3). apply Hd in H1. rewrite H1, H2.
        destruct my; try discriminate. simpl in *.
        destruct (ColumnType_eqb (Mapping.type m) temporal),
                 (ColumnType_eqb (Mapping.type m) quantitative);
          try discriminate; reflexivity.
    + split; [discriminate|]. intros (_ & _ & H). rewrite andb_false_r in H.
      discriminate.
  - destruct mx as [m|]; simpl.
    + split.
      * intros [= H]. peel H.
        split; [now apply Hd|]. split; assumption.
      * intros (H1 & H2 & H3). apply Hd in H1. rewrite H1, H2, H3. reflexivity.
    + split; [discriminate|]. intros (_ & _ & H). discriminate.
  - split.
    + intros [= H]. peel H.
      split; [now apply Hd|]. split; [assumption|].
      destruct mx, my; simpl in *; auto; discriminate.
    + intros (H1 & H2 & H3). apply Hd in H1. rewrite H1, H2.
      destruct mx, my; try discriminate; reflexivity.
Qed.

(** X21. For each of the six supported chart types the mark has the
    tooltip on; its type is [circle] for scatter, [bar] for histogram and
    the chart type itself for bar, line, area and boxplot; it has the size
    60 for scatter and no size otherwise, the point flag for line and none
    otherwise; and it has a white stroke of width 0.5 when color is mapped
    and no stroke otherwise. *)
Theorem buildMark_supported (chartType : string) (mappings : Mappings.t) :
  In chartType SpecBuilder.supportedTypes ->
  let mark := SpecBuilder.buildMark chartType mappings in
  Mark.tooltip mark = true
  /\ Mark.type mark
     = (if String.eqb chartType "scatter" then "circle"
        else if String.eqb chartType "histogram" then "bar"
        else chartType)
  /\ Mark.size mark
     = (if String.eqb chartType "scatter" then Some (num 60) else None)
  /\ Mark.point mark
     = (if String.eqb chartType "line" then Some true else None)
  /\ (if isSet (Mappings.color mappings)
      then Mark.stroke mark = Some "white"
           /\ Mark.strokeWidth mark = Some (Finite false 5 (-1))
      else Mark.stroke mark = None /\ Mark.strokeWidth mark = None).
Proof.
  intros Hin. simpl in Hin.
  destruct Hin as [<- | [<- | [<- | [<- | [<- | [<- | []]]]]]];
    unfold buildMark; destruct (Mappings.color mappings); simpl;
    repeat match goal with |- _ /\ _ => split end; reflexivity.
Qed.

Lemma buildMark_supported_witness :
  Mark.type (SpecBuilder.buildMark "histogram" Samples.quantitativeXY) = "bar".
Proof.
  refine (proj1 (proj2 (buildMark_supported "histogram" Samples.quantitativeXY _))).
  simpl. tauto.
Defined.

(** A chart type the builder supports is one the renderer supports. *)
Lemma supportedTypes_rendered (chartType : string) :
  In chartType supportedTypes -> In chartType ChartRenderer.getSupportedChartTypes.
Proof. simpl. intuition. Qed.

(** X22. The renderer's [validateSpec] finds nothing wrong with a
    specification built by [buildSpec] when x or y is mapped; when neither
    is, its only message is that the chart needs an x or y encoding. *)
Theorem validateSpec_of_buildSpec (data : Dataset) (chartType : string)
    (mappings : Mappings.t) (config : Config.t) :
  exists spec,
    SpecBuilder.buildSpec data chartType mappings config = Ok spec
    /\ ChartRenderer.validateSpec (ChartRenderer.shapeOf spec)
       = (if isSet (Mappings.x mappings) || isSet (Mappings.y mappings) then []
          else ["Chart must have at least x or y encoding"]).
Proof.
  destruct mappings as [[mx|] [my|] [mc|] [ms|]]; eexists; split; reflexivity.
Qed.

(** X23. What [updateChart] hands to the renderer passes the renderer's
    validation, holds the loaded data set, and has both an x and a y
    entry. *)
Theorem updateChart_renders_valid_spec (cb : ChartBuilder.t) (spec : Spec.t) :
  ChartBuilder.updateChart cb = ChartBuilder.Render spec ->
  ChartRenderer.validateSpec (ChartRenderer.shapeOf spec) = []
  /\ (exists data, ChartBuilder.currentData cb = Some data /\ Spec.values spec = data)
  /\ isSet (Encoding.x (Spec.encoding spec)) = true
  /\ isSet (Encoding.y (Spec.encoding spec)) = true.
Proof.
  destruct cb as [d m t c]. unfold ChartBuilder.updateChart. simpl.
  destruct d as [data|]; [|discriminate].
  destruct m as [[mx|] [my|] [mc|] [ms|]]; simpl; try discriminate;
    intros [= <-]; (split; [reflexivity|]); (split; [|split; reflexivity]);
    exists data; split; reflexivity.
Qed.

Lemma updateChart_renders_valid_spec_witness :
  exists spec,
    ChartBuilder.updateChart
      (ChartBuilder.run
         [ChartBuilder.Load [Samples.rowA; Samples.rowB];
          ChartBuilder.Drop true "x"
            (Some {| Mapping.column := "name"; Mapping.type := nominal |});
          ChartBuilder.Drop true "y"
            (Some {| Mapping.column := "value"; Mapping.type := quantitative |})])
    = ChartBuilder.Render spec
    /\ ChartRenderer.validateSpec (ChartRenderer.shapeOf spec) = [].
Proof.
  set (cb := ChartBuilder.run _).
  assert (H : exists spec, ChartBuilder.updateChart cb = ChartBuilder.Render spec).
  { vm_compute. eexists. reflexivity. }
  destruct H as [spec H]. exists spec. split; [exact H|].
  exact (proj1 (updateChart_renders_valid_spec cb spec H)).
Defined.

End ChartConfigFacts.

(* ===================================================================== *)
(** ** Format detection *)

Section AutoDetectFacts.
Import JSString JSNumeric DataManager Wording DragDropManager SpecBuilder.

Lemma tryParse_cases (parsed otherwise : result Dataset) :
  tryParse parsed otherwise = parsed /\ returns parsed
  \/ tryParse parsed otherwise = otherwise /\ ~ returns parsed.
Proof.
  destruct parsed as [data|e]; simpl.
  - left. split; [reflexivity | now exists data].
  - right. split; [reflexivity | intros (a & H); discriminate].
Qed.

(** X24. Content that has a comma and, once trimmed, a line feed is read
    as comma-separated by [parseAutoDetect], whatever else it contains
    (tabs, or the text of a JSON array). *)
Theorem parseAutoDetect_prefers_csv (jsonParse : string -> result (option Dataset))
    (content : string) :
  includesChar comma content = true ->
  In newline (chars (trim content)) ->
  DataManager.parseAutoDetect jsonParse content = parseCSV content comma
  /\ returns (parseCSV content comma).
Proof.
  intros Hc Hn. unfold parseAutoDetect. cbv zeta. rewrite Hc.
  apply (proj1 (parseCSV_returns_newline content comma)) in Hn.
  destruct Hn as (data & Hd). rewrite Hd. simpl.
  split; [reflexivity | now exists data].
Qed.

Lemma parseAutoDetect_prefers_csv_witness :
  DataManager.parseAutoDetect (fun _ => Throw (Error "Unexpected token")) Samples.scenarioCSV
  = parseCSV Samples.scenarioCSV comma.
Proof.
  refine (proj1 (parseAutoDetect_prefers_csv _ Samples.scenarioCSV _ _)).
  - reflexivity.
  - vm_compute. tauto.
Defined.

(** X25. The only error that leaves [parseAutoDetect] is the one saying
    that the format could not be detected: the errors of the parsers it
    tries are swallowed.  Content that is a single line once trimmed is
    never read as CSV or TSV: it yields data only as a JSON array whose
    text starts with a bracket or a brace. *)
Theorem parseAutoDetect_failure (jsonParse : string -> result (option Dataset))
    (content : string) :
  (forall e, DataManager.parseAutoDetect jsonParse content = Throw e -> e = couldNotDetect)
  /\ (~ In newline (chars (trim content)) ->
      forall data, parseAutoDetect jsonParse content = Ok data ->
        jsonParse content = Ok (Some data)
        /\ (startsWithChar "["%char (chars (trim content)) = true
            \/ startsWithChar "{"%char (chars (trim content)) = true)).
Proof.
  unfold parseAutoDetect. cbv zeta. split.
  - intros e.
    assert (HJ : forall r,
               (if startsWithChar "[" (chars (trim content))
                   || startsWithChar "{" (chars (trim content))
                then tryParse (parseJSON jsonParse content) (Throw couldNotDetect)
                else Throw couldNotDetect) = r ->
               r = Throw e -> e = couldNotDetect).
    { intros r <-. destruct (_ || _); [|now intros [= <-]].
      destruct (parseJSON jsonParse content); simpl; [discriminate | now intros [= <-]]. }
    fold couldNotDetect.
    destruct (includesChar comma content);
      [destruct (parseCSV content comma); simpl; [discriminate|]|];
      (destruct (includesChar tab content);
       [destruct (parseTSV content); simpl; [discriminate|]|]);
      apply (HJ _ eq_refl).
  - intros Hn data.
    assert (Hcsv : forall delimiter, ~ returns (parseCSV content delimiter)).
    { intros delimiter H. apply Hn.
      now apply (proj1 (parseCSV_returns_newline content delimiter)). }
    assert (HT : forall delimiter otherwise,
               tryParse (parseCSV content delimiter) otherwise = otherwise).
    { intros delimiter otherwise.
      destruct (parseCSV content delimiter) as [dd|] eqn:E; [|reflexivity].
      exfalso. apply (Hcsv delimiter). now exists dd. }
    unfold parseTSV. rewrite !HT.
    assert (HJ :
      (if startsWithChar "[" (chars (trim content))
          || startsWithChar "{" (chars (trim content))
       then tryParse (parseJSON jsonParse content)
              (Throw (Error ("Could not detect file format. "
                             +:+ "Please ensure it is CSV, TSV, or JSON.")))
       else Throw (Error ("Could not detect file format. "
                          +:+ "Please ensure it is CSV, TSV, or JSON."))) = Ok data ->
      jsonParse content = Ok (Some data)
      /\ (startsWithChar "[" (chars (trim content)) = true
          \/ startsWithChar "{" (chars (trim content)) = true)).
    { destruct (startsWithChar "[" (chars (trim content))
                || startsWithChar "{" (chars (trim content))) eqn:Eb; [|discriminate].
      apply orb_prop in Eb. unfold parseJSON.
      destruct (jsonParse content) as [[dd|]|]; simpl; try discriminate.
      intros [= ->]. auto. }
    destruct (includesChar comma content), (includesChar tab content); exact HJ.
Qed.

Lemma parseAutoDetect_failure_witness :
  DataManager.parseAutoDetect (fun _ => Throw (Error "Unexpected token")) "[1, 2"
  = Throw couldNotDetect.
Proof.
  destruct (DataManager.parseAutoDetect (fun _ => Throw (Error "Unexpected token")) "[1, 2")
    as [data|e] eqn:H.
  - vm_compute in H. discriminate H.
  - f_equal.
    exact (proj1 (parseAutoDetect_failure
                    (fun _ => Throw (Error "Unexpected token")) "[1, 2") e H).
Defined.

End AutoDetectFacts.

(* ===================================================================== *)
(** ** Cells read as NaN *)

Section BlankCellFacts.
Import JSString JSNumeric DataManager Wording DragDropManager SpecBuilder.

Lemma dropWhile_split (p : ascii -> bool) (l : list ascii) :
  exists a, l = a ++ dropWhile p l /\ forallb p a = true.
Proof.
  induction l as [|c l IH]; simpl.
  - now exists [].
  - destruct (p c) eqn:Hc.
    + destruct IH as (a & Ha & Hp). exists (c :: a). simpl.
      rewrite Hc, Hp. split; [now f_equal | reflexivity].
    + now exists [].
Qed.

(** What trimming the end removes is white space. *)
Lemma trimEndChars_split (t : list ascii) :
  exists w, t = trimEndChars t ++ w /\ forallb isWhiteSpace w = true.
Proof.
  unfold trimEndChars.
  destruct (dropWhile_split isWhiteSpace (rev t)) as (a & Ha & Hp).
  exists (rev a). split.
  - rewrite <- rev_app_distr, <- Ha. symmetry. apply rev_involutive.
  - rewrite forallb_forall in *. intros c Hc. apply Hp. now apply in_rev.
Qed.

Lemma whiteSpace_not_literal (c : ascii) :
  isWhiteSpace c = true ->
  isDigit c = false /\ Ascii.eqb c "." = false.
Proof.
  destruct c as [[] [] [] [] [] [] [] []]; intros H; vm_compute in H;
    try discriminate H; split; reflexivity.
Qed.

Lemma scanSign_app (c : ascii) (l w : list ascii) :
  scanSign ((c :: l) ++ w)
  = (fst (scanSign (c :: l)), snd (scanSign (c :: l)) ++ w).
Proof. destruct c as [[] [] [] [] [] [] [] []]; reflexivity. Qed.

Lemma stripPrefix_app (p l r w : list ascii) :
  stripPrefix p l = Some r -> stripPrefix p (l ++ w) = Some (r ++ w).
Proof.
  revert l. induction p as [|a p IH]; intros l; simpl.
  - now intros [= ->].
  - destruct l as [|b l]; [discriminate|]. simpl.
    destruct (Ascii.eqb a b); [apply IH | discriminate].
Qed.

Lemma integerOnly_some (neg : bool) (ip r1 : list ascii) :
  ip <> [] -> exists y, integerOnly neg ip r1 = Some y.
Proof.
  intros H. unfold integerOnly. destruct ip; [contradiction|].
  destruct (scanExponent r1). eexists. reflexivity.
Qed.

Lemma integerOnly_nonempty (neg : bool) (ip r1 : list ascii) y :
  integerOnly neg ip r1 = Some y -> ip <> [].
Proof. unfold integerOnly. destruct ip; [discriminate | discriminate]. Qed.

Lemma withFraction_some_iff (neg : bool) (ip r2 : list ascii) :
  (exists y, withFraction neg ip r2 = Some y)
  <-> ip <> [] \/ fst (span isDigit r2) <> [].
Proof.
  unfold withFraction. destruct (span isDigit r2) as [fp r3]. simpl.
  destruct ip, fp.
  - split; [intros (y & H); discriminate | intros [H | H]; contradiction].
  - destruct (scanExponent r3). split; [intros _; right; discriminate | eexists; reflexivity].
  - destruct (scanExponent r3). split; [intros _; left; discriminate | eexists; reflexivity].
  - destruct (scanExponent r3). split; [intros _; left; discriminate | eexists; reflexivity].
Qed.

Lemma span_app_whiteSpace (l w : list ascii) :
  forallb isWhiteSpace w = true ->
  fst (span isDigit (l ++ w)) = fst (span isDigit l)
  /\ snd (span isDigit (l ++ w)) = snd (span isDigit l) ++ w.
Proof.
  intros Hw. induction l as [|c l IH]; simpl.
  - destruct w as [|c w]; [now split|]. simpl in *.
    apply andb_prop in Hw. destruct Hw as [Hc _].
    destruct (whiteSpace_not_literal c Hc) as [-> _]. now split.
  - destruct (isDigit c); [|now split].
    destruct (span isDigit (l ++ w)), (span isDigit l). simpl in *.
    destruct IH as [-> ->]. now split.
Qed.

(** White space after a text that starts with a decimal literal leaves it
    starting with a decimal literal. *)
Lemma scanDecimal_app_whiteSpace (l w : list ascii) :
  forallb isWhiteSpace w = true ->
  (exists y, scanDecimal l = Some y) ->
  exists y, scanDecimal (l ++ w) = Some y.
Proof.
  intros Hw (y & Hy). unfold scanDecimal in *.
  destruct l as [|c l].
  { simpl in Hy. discriminate. }
  rewrite scanSign_app. destruct (scanSign (c :: l)) as [sg r]. simpl fst. simpl snd.
  rewrite scanUnsignedDecimal_eq in *.
  destruct (stripPrefix infinityChars r) as [r'|] eqn:Hinf.
  { rewrite (stripPrefix_app _ _ _ w Hinf). eexists. reflexivity. }
  destruct (stripPrefix infinityChars (r ++ w)); [eexists; reflexivity|].
  destruct (span_app_whiteSpace r w Hw) as (Hf & Hs).
  destruct (span isDigit r) as [ip r1]. destruct (span isDigit (r ++ w)) as [ip' r1'].
  simpl in Hf, Hs. subst ip' r1'.
  destruct r1 as [|d r2].
  - apply integerOnly_nonempty in Hy. simpl app.
    destruct w as [|d w]; [now apply integerOnly_some|].
    simpl in Hw. apply andb_prop in Hw. destruct Hw as [Hd _].
    destruct (whiteSpace_not_literal d Hd) as [_ ->].
    now apply integerOnly_some.
  - change ((d :: r2) ++ w) with (d :: (r2 ++ w)).
    destruct (Ascii.eqb d ".") eqn:Ed.
    + rewrite ?Ed. apply withFraction_some_iff.
      assert (Hy' : exists y, withFraction sg ip r2 = Some y) by eauto.
      apply withFraction_some_iff in Hy'.
      destruct (span_app_whiteSpace r2 w Hw) as (-> & _). exact Hy'.
    + rewrite ?Ed. apply integerOnly_nonempty in Hy. now apply integerOnly_some.
Qed.

(** A non-decimal literal starts with the decimal literal 0. *)
Lemma nonDecimal_scanDecimal (l w : list ascii) :
  isNonDecimalInteger l = true -> exists y, scanDecimal (l ++ w) = Some y.
Proof.
  unfold isNonDecimalInteger.
  destruct l as [|c [|p [|d rest]]];
    try (destruct c as [[] [] [] [] [] [] [] []]; discriminate).
  - discriminate.
  - destruct c as [[] [] [] [] [] [] [] []]; try discriminate.
    intros H.
    assert (Hp : isDigit p = false /\ Ascii.eqb p "." = false).
    { destruct (Ascii.eqb p "x") eqn:E1; [apply Ascii.eqb_eq in E1; subst; now split|].
      destruct (Ascii.eqb p "X") eqn:E2; [apply Ascii.eqb_eq in E2; subst; now split|].
      destruct (Ascii.eqb p "o") eqn:E3; [apply Ascii.eqb_eq in E3; subst; now split|].
      destruct (Ascii.eqb p "O") eqn:E4; [apply Ascii.eqb_eq in E4; subst; now split|].
      destruct (Ascii.eqb p "b") eqn:E5; [apply Ascii.eqb_eq in E5; subst; now split|].
      destruct (Ascii.eqb p "B") eqn:E6; [apply Ascii.eqb_eq in E6; subst; now split|].
      simpl in H. discriminate. }
    destruct Hp as (Hpd & Hpdot).
    unfold scanDecimal. simpl app.
    change (scanSign ("0"%char :: p :: d :: rest ++ w))
      with (false, "0"%char :: p :: d :: rest ++ w).
    cbv beta iota. rewrite scanUnsignedDecimal_eq.
    change (stripPrefix infinityChars ("0"%char :: p :: d :: rest ++ w)) with (@None (list ascii)).
    cbn [span]. change (isDigit "0") with true. cbn iota. rewrite Hpd.
    rewrite Hpdot. apply integerOnly_some. discriminate.
Qed.

(** X7. [parseValue] returns the number [NaN] exactly for a non-empty
    cell whose text, after trimming and quote removal, is not empty and
    consists of white space only (a quoted blank); no other text gives
    [NaN]. *)
Theorem parseValue_NaN_iff (raw : string) :
  DataManager.parseValue raw = VNum NaN
  <-> raw <> "" /\ unquoted raw <> ""
      /\ forallb isWhiteSpace (chars (unquoted raw)) = true.
Proof.
  split.
  - intros H.
    assert (Hne : raw <> "") by (intros ->; discriminate H).
    rewrite (parseValue_cases raw Hne) in H. cbv zeta in H.
    destruct (isNaN (unquoted raw)) eqn:Hn; simpl in H.
    { destruct (isDate (unquoted raw)); discriminate. }
    destruct (String.eqb (unquoted raw) "") eqn:He; simpl in H.
    { destruct (isDate (unquoted raw)); discriminate. }
    apply String.eqb_neq in He. split; [exact Hne|]. split; [exact He|].
    injection H as H.
    unfold isNaN in Hn. apply negb_false_iff in Hn.
    unfold isNumericString in Hn. unfold parseFloat in H.
    set (l := chars (unquoted raw)) in *.
    destruct (trimEndChars_split (trimStartChars l)) as (w & Hsplit & Hw).
    fold (trimChars l) in Hsplit.
    destruct (trimChars l) as [|c t] eqn:Et.
    + simpl in Hsplit.
      destruct (dropWhile_split isWhiteSpace l) as (a & Ha & Hp).
      fold (trimStartChars l) in Ha. rewrite Ha, forallb_app, Hp, Hsplit, Hw.
      reflexivity.
    + exfalso.
      assert (Hsome : exists y, scanDecimal (trimStartChars l) = Some y).
      { rewrite Hsplit.
        destruct (scanDecimal (c :: t)) as [[n [|r0 rs]]|] eqn:Es.
        - apply scanDecimal_app_whiteSpace; eauto.
        - now apply nonDecimal_scanDecimal.
        - now apply nonDecimal_scanDecimal. }
      destruct Hsome as ([n r] & Hs). rewrite Hs in H. subst n.
      revert Hs. clear. unfold scanDecimal.
      destruct (scanSign (trimStartChars l)) as [sg r'].
      rewrite scanUnsignedDecimal_eq.
      destruct (stripPrefix infinityChars r'); [discriminate|].
      destruct (span isDigit r') as [ip r1].
      unfold integerOnly, withFraction.
      destruct r1 as [|d r2].
      * destruct ip; [discriminate|]. destruct (scanExponent []). discriminate.
      * destruct (Ascii.eqb d ".").
        -- destruct (span isDigit r2) as [fp r3].
           destruct ip, fp; try discriminate; destruct (scanExponent r3); discriminate.
        -- destruct ip; [discriminate|]. destruct (scanExponent (d :: r2)). discriminate.
  - intros (Hne & Hu & Hw).
    assert (Ht : trimStartChars (chars (unquoted raw)) = []).
    { unfold trimStartChars.
      induction (chars (unquoted raw)) as [|c l IH]; [reflexivity|].
      simpl in *. apply andb_prop in Hw. destruct Hw as [Hc Hl].
      rewrite Hc. now apply IH. }
    rewrite (parseValue_number raw Hne Hu).
    + unfold parseFloat. now rewrite Ht.
    + unfold isNaN, isNumericString, trimChars. now rewrite Ht.
Qed.

End BlankCellFacts.

(* ===================================================================== *)
(** ** The states of the chart builder *)

Section BuilderStates.
Import JSString JSNumeric DataManager Wording DragDropManager SpecBuilder.
Import ChartBuilder.

Ltac by_keys :=
  repeat match goal with
         | |- context [String.eqb ?e ?k] =>
             let E := fresh "E" in
             destruct (String.eqb e k) eqn:E;
             [apply String.eqb_eq in E | apply String.eqb_neq in E];
             cbv beta iota
         end;
  subst; try reflexivity; try congruence; try discriminate.

Lemma getSlot_setSlot_same (encoding : string) (slot : option Mapping.t)
    (mappings : Mappings.t) :
  isKey encoding = true ->
  getSlot encoding (setSlot encoding slot mappings) = slot.
Proof. unfold isKey, getSlot, setSlot. by_keys. Qed.

Lemma getSlot_setSlot_other (encoding other : string) (slot : option Mapping.t)
    (mappings : Mappings.t) :
  other <> encoding ->
  getSlot other (setSlot encoding slot mappings) = getSlot other mappings.
Proof. intros Hne. unfold getSlot, setSlot. by_keys. Qed.

Lemma getSlot_key (encoding : string) (mappings : Mappings.t) (m : Mapping.t) :
  getSlot encoding mappings = Some m -> isKey encoding = true.
Proof. unfold isKey, getSlot. by_keys. Qed.

Lemma validateMapping_key (encoding : string) (dragData : Mapping.t) :
  DragDropManager.validateMapping encoding dragData = true -> isKey encoding = true.
Proof.
  unfold DragDropManager.validateMapping, isKey, DragDropManager.validMappings,
    DragDropManager.lookupEncoding.
  by_keys.
Qed.

Lemma validated_empty : validated Mappings.empty.
Proof.
  intros encoding dragData. unfold getSlot. simpl.
  repeat (destruct (String.eqb encoding _); [discriminate|]). discriminate.
Qed.

Lemma validated_remove (encoding : string) (mappings : Mappings.t) :
  validated mappings -> validated (setSlot encoding None mappings).
Proof.
  intros H encoding' dragData.
  destruct (String.eqb encoding' encoding) eqn:E.
  - apply String.eqb_eq in E. subst encoding'. intros Hs.
    pose proof (getSlot_key _ _ _ Hs) as Hk.
    rewrite (getSlot_setSlot_same _ _ _) in Hs; [discriminate|].
    revert Hk. unfold isKey, getSlot, setSlot. by_keys.
  - apply String.eqb_neq in E. rewrite (getSlot_setSlot_other _ _ _ _ E). apply H.
Qed.

Lemma validated_set (encoding : string) (dragData : Mapping.t)
    (mappings : Mappings.t) :
  DragDropManager.validateMapping encoding dragData = true ->
  validated mappings -> validated (setSlot encoding (Some dragData) mappings).
Proof.
  intros Hv H encoding' d'.
  destruct (String.eqb encoding' encoding) eqn:E.
  - apply String.eqb_eq in E. subst encoding'.
    rewrite (getSlot_setSlot_same _ _ _ (validateMapping_key _ _ Hv)).
    now intros [= <-].
  - apply String.eqb_neq in E. rewrite (getSlot_setSlot_other _ _ _ _ E). apply H.
Qed.

Lemma clearMappings_empty (cb : ChartBuilder.t) :
  currentMappings (clearMappings cb) = Mappings.empty
  /\ currentData (clearMappings cb) = currentData cb
  /\ currentChartType (clearMappings cb) = currentChartType cb
  /\ chartConfig (clearMappings cb) = chartConfig cb.
Proof. destruct cb as [d m t c]. repeat split. Qed.

Lemma step_validated (cb : ChartBuilder.t) (e : Event) :
  validated (currentMappings cb) -> validated (currentMappings (step cb e)).
Proof.
  intros H. destruct e as [v encoding payload | encoding | data | | chartType]; simpl.
  - unfold handleDrop. destruct v; simpl; [|exact H].
    destruct payload as [dragData|]; [|exact H].
    destruct (DragDropManager.validateMapping encoding dragData) eqn:Hv; simpl; [|exact H].
    destruct dragData as [column type]. now apply validated_set.
  - now apply validated_remove.
  - destruct cb as [d m t c]. apply validated_empty.
  - destruct cb as [d m t c]. apply validated_empty.
  - exact H.
Qed.

Lemma run_snoc (events : list Event) (e : Event) :
  run (events ++ [e]) = step (run events) e.
Proof. unfold run. now rewrite fold_left_app. Qed.

(** X26. Whatever the user does (drops, removals, loading data, clearing,
    changing the chart type), every mapping the builder holds is one the
    validator accepts on its channel: y and size hold quantitative columns
    only, and color never holds a temporal column. *)
Theorem run_validated (events : list Event) :
  validated (currentMappings (run events))
  /\ (forall m, Mappings.y (currentMappings (run events)) = Some m ->
        Mapping.type m = quantitative)
  /\ (forall m, Mappings.size (currentMappings (run events)) = Some m ->
        Mapping.type m = quantitative)
  /\ (forall m, Mappings.color (currentMappings (run events)) = Some m ->
        Mapping.type m <> temporal).
Proof.
  assert (H : validated (currentMappings (run events))).
  { induction events as [|e events IH] using rev_ind.
    - apply validated_empty.
    - rewrite run_snoc. now apply step_validated. }
  split; [exact H|]. repeat split.
  - intros m Hm. specialize (H "y" m Hm). destruct m as [c []]; (reflexivity || discriminate).
  - intros m Hm. specialize (H "size" m Hm). destruct m as [c []]; (reflexivity || discriminate).
  - intros m Hm. specialize (H "color" m Hm). destruct m as [c []]; (discriminate).
Qed.


(** X28. A drop the validator rejects changes nothing.  A drop it accepts
    puts the dragged column on that channel, leaves the other channels as
    they were and keeps the data set. *)
Theorem drop_outcome (cb : ChartBuilder.t) (encoding : string) (dragData : Mapping.t) :
  (DragDropManager.validateMapping encoding dragData = false ->
   handleDrop true encoding (Some dragData) cb = cb)
  /\ (DragDropManager.validateMapping encoding dragData = true ->
      getSlot encoding (currentMappings (handleDrop true encoding (Some dragData) cb))
      = Some dragData
      /\ (forall other, other <> encoding ->
            getSlot other (currentMappings (handleDrop true encoding (Some dragData) cb))
            = getSlot other (currentMappings cb))
      /\ currentData (handleDrop true encoding (Some dragData) cb) = currentData cb).
Proof.
  unfold handleDrop. simpl. split.
  - now intros ->.
  - intros Hv. rewrite Hv. simpl. destruct dragData as [column type].
    unfold updateMapping, withMappings. simpl.
    pose proof (validateMapping_key _ _ Hv) as Hk.
    repeat split.
    + now apply getSlot_setSlot_same.
    + intros other Hne. now apply getSlot_setSlot_other.
Qed.

Lemma drop_outcome_witness :
  ChartBuilder.handleDrop true "y"
    (Some {| Mapping.column := "name"; Mapping.type := nominal |}) ChartBuilder.initial
  = ChartBuilder.initial.
Proof.
  apply (proj1 (drop_outcome ChartBuilder.initial "y"
                  {| Mapping.column := "name"; Mapping.type := nominal |})).
  reflexivity.
Defined.

End BuilderStates.
